(** * pkgbld.release: the Package-Builder release procedure

    A shallow embedding of [src/pkgbld/release.py].  The procedure is a
    linear choreography of prints, filesystem operations and external
    commands guarded by an input check, so it is embedded as a program
    in a small free monad over the calls it makes to its environment
    (operating system, [shutil], [subprocess], [pkgbld.utils]).  Running
    a program against a [world] yields the trace of calls together
    with what the world answered, and the way the procedure ended
    (returned, or raised an exception). *)

From Stdlib Require Import String Ascii List ZArith Bool Lia DecimalString.
Import ListNotations.
Open Scope string_scope.
Set Warnings "-register-all,-notation-for-abbreviation".

(* ================================================================= *)
(** ** Python values and the builtins the procedure relies on *)

(** The values that a caller can pass to [release]: [None],
    booleans, integers, strings and lists, and objects of any other
    class.  A [str] is held as its UTF-8 bytes.  Of an object of
    another class [release] can see only what [PObj] records: the
    name of its class, its truth value, what iterating it yields
    ([None] when it cannot be iterated), and its [str()] and
    [repr()].  An instance of [str] or [bool] is a [PStr] or a
    [PBool]; objects whose [__bool__], [__iter__] or [__str__] raise
    or do not return are outside the model. *)
Inductive PyVal : Type :=
| PNone
| PBool (b : bool)
| PInt (z : Z)
| PStr (s : string)
| PList (l : list PyVal)
| PObj (class : string) (truth : bool) (elements : option (list PyVal))
       (str_text repr_text : string).

Inductive exn : Type :=
| ValueError (msg : string)
| TypeError (msg : string)
| OSError (msg : string)
| CalledProcessError (cmd : string) (status : Z).

(** [isinstance(v, str)] and [isinstance(v, bool)]. *)
Definition isinstance_str (v : PyVal) : bool :=
  match v with PStr _ => true | _ => false end.

Definition isinstance_bool (v : PyVal) : bool :=
  match v with PBool _ => true | _ => false end.

(** Truth value of an object, as tested by [if], [or] and [not]. *)
Definition truthy (v : PyVal) : bool :=
  match v with
  | PNone => false
  | PBool b => b
  | PInt z => negb (Z.eqb z 0)
  | PStr s => negb (String.eqb s "")
  | PList l => match l with [] => false | _ => true end
  | PObj _ truth _ _ _ => truth
  end.

(** [a or b]. *)
Definition py_or (a b : PyVal) : PyVal := if truthy a then a else b.

Definition type_name (v : PyVal) : string :=
  match v with
  | PNone => "NoneType"
  | PBool _ => "bool"
  | PInt _ => "int"
  | PStr _ => "str"
  | PList _ => "list"
  | PObj class _ _ _ _ => class
  end.

(** A byte that continues a UTF-8 sequence: [10xxxxxx]. *)
Definition is_continuation (b : ascii) : bool :=
  (128 <=? nat_of_ascii b)%nat && (nat_of_ascii b <? 192)%nat.

Definition starts_with_continuation (s : string) : bool :=
  match s with
  | EmptyString => false
  | String b _ => is_continuation b
  end.

(** The characters (code points) of a string held as UTF-8: each is a
    byte together with the continuation bytes that follow it. *)
Fixpoint code_points (s : string) : list string :=
  match s with
  | EmptyString => []
  | String c s' =>
      match code_points s' with
      | g :: gs =>
          if starts_with_continuation s' then String c g :: gs
          else String c "" :: g :: gs
      | [] => [String c ""]
      end
  end.

(** The elements a [for] loop visits; iterating a [str] yields its
    characters one at a time, a non-iterable raises [TypeError]. *)
Definition chars (s : string) : list PyVal := map PStr (code_points s).

Definition py_iter (v : PyVal) : exn + list PyVal :=
  match v with
  | PStr s => inr (chars s)
  | PList l => inr l
  | PObj _ _ (Some l) _ _ => inr l
  | _ => inl (TypeError ("'" ++ type_name v ++ "' object is not iterable"))
  end.

(** *** [str()] and [repr()] *)

Definition hex_digit (n : nat) : ascii :=
  match n with
  | 0 => "0" | 1 => "1" | 2 => "2" | 3 => "3" | 4 => "4" | 5 => "5"
  | 6 => "6" | 7 => "7" | 8 => "8" | 9 => "9" | 10 => "a" | 11 => "b"
  | 12 => "c" | 13 => "d" | 14 => "e" | _ => "f"
  end%char.

Definition newline : ascii := ascii_of_nat 10.
Definition carriage_return : ascii := ascii_of_nat 13.
Definition tab : ascii := ascii_of_nat 9.
Definition dquote : ascii := ascii_of_nat 34.

Fixpoint contains (c : ascii) (s : string) : bool :=
  match s with
  | EmptyString => false
  | String d s' => Ascii.eqb c d || contains c s'
  end.

(** One character of [repr(str)] under quote character [q].  Only the
    ASCII part of [repr] is modelled: a byte above 127 is kept as it
    is, which is what CPython does for the printable non-ASCII
    characters and not for the others (it escapes those). *)
Definition repr_char (q c : ascii) : string :=
  let n := nat_of_ascii c in
  if Ascii.eqb c q || Ascii.eqb c "\"%char then String "\"%char (String c "")
  else if Ascii.eqb c newline then "\n"
  else if Ascii.eqb c carriage_return then "\r"
  else if Ascii.eqb c tab then "\t"
  else if (n <? 32)%nat || (n =? 127)%nat
       then String "\"%char (String "x"%char
              (String (hex_digit (n / 16)) (String (hex_digit (n mod 16)) "")))
  else String c "".

Fixpoint repr_chars (q : ascii) (s : string) : string :=
  match s with
  | EmptyString => ""
  | String c s' => repr_char q c ++ repr_chars q s'
  end.

Definition repr_str (s : string) : string :=
  let q := if contains "'"%char s && negb (contains dquote s)
           then dquote else "'"%char in
  String q (repr_chars q s ++ String q "").

Definition str_of_int (z : Z) : string := NilZero.string_of_int (Z.to_int z).

Fixpoint join (sep : string) (l : list string) : string :=
  match l with
  | [] => ""
  | [x] => x
  | x :: l' => x ++ sep ++ join sep l'
  end.

Fixpoint py_repr (v : PyVal) : string :=
  match v with
  | PNone => "None"
  | PBool true => "True"
  | PBool false => "False"
  | PInt z => str_of_int z
  | PStr s => repr_str s
  | PList l => "[" ++ join ", " (map py_repr l) ++ "]"
  | PObj _ _ _ _ repr_text => repr_text
  end.

(** [str(v)], which is what ['{}'.format(v)] and an f-string field
    [{v}] insert. *)
Definition py_str (v : PyVal) : string :=
  match v with
  | PStr s => s
  | PObj _ _ _ str_text _ => str_text
  | _ => py_repr v
  end.

(** *** String methods *)

(** [s.startswith(p)]: the first [len(p)] characters of [s] are [p]. *)
Fixpoint startswith (s p : string) {struct p} : bool :=
  match p with
  | EmptyString => true
  | String a p' =>
      match s with
      | EmptyString => false
      | String b s' => Ascii.eqb a b && startswith s' p'
      end
  end.

(** [s.endswith(suffix)]: the last [len(suffix)] characters of [s]
    are [suffix]. *)
Definition endswith (s suffix : string) : bool :=
  let n := String.length s in
  let m := String.length suffix in
  (m <=? n)%nat && String.eqb (substring (n - m) m s) suffix.

(** *** [os.path.join] (posixpath) *)

Definition sep : string := "/".

Definition join_step (path b : string) : string :=
  if startswith b sep then b
  else if String.eqb path "" || endswith path sep then path ++ b
  else path ++ sep ++ b.

Definition os_path_join (a : string) (p : list string) : string :=
  fold_left join_step p a.

(* ================================================================= *)
(** ** Regular expressions: the fragment of [re] used by [release] *)

Inductive cset : Type :=
| Single (c : ascii)
| Range (lo hi : ascii).

Inductive re_item : Type :=
| Caret                (* ^ *)
| Dollar               (* $ *)
| One (cs : cset)      (* a literal or a class *)
| Plus (cs : cset).    (* one or more, greedy, with backtracking *)

Definition in_cset (cs : cset) (c : ascii) : bool :=
  match cs with
  | Single d => Ascii.eqb c d
  | Range lo hi =>
      (nat_of_ascii lo <=? nat_of_ascii c)%nat
      && (nat_of_ascii c <=? nat_of_ascii hi)%nat
  end.

(** Without [re.MULTILINE], [$] matches at the end of the string and
    also just before a newline that is the last character. *)
Definition at_dollar (s : string) : bool :=
  match s with
  | EmptyString => true
  | String c EmptyString => Ascii.eqb c newline
  | _ => false
  end.

Fixpoint plus_loop (cs : cset) (k : string -> bool) (s : string) : bool :=
  match s with
  | EmptyString => false
  | String c s' => in_cset cs c && (plus_loop cs k s' || k s')
  end.

Fixpoint match_here (p : list re_item) (at_start : bool) (s : string)
  {struct p} : bool :=
  match p with
  | [] => true
  | Caret :: p' => at_start && match_here p' at_start s
  | Dollar :: p' => at_dollar s && match_here p' at_start s
  | One cs :: p' =>
      match s with
      | EmptyString => false
      | String c s' => in_cset cs c && match_here p' false s'
      end
  | Plus cs :: p' => plus_loop cs (match_here p' false) s
  end.

(** [re.match(pattern, s) is not None]: a match anchored at the start
    of [s]; the rest of [s] after the match is unconstrained. *)
Definition re_match (pattern : list re_item) (s : string) : bool :=
  match_here pattern true s.

(* ================================================================= *)
(** ** Programs over the environment *)

(** The calls [release] makes to the outside. *)
Inductive call : Type :=
| Print (line : string)                             (* print(line) *)
| Asctime                                           (* time.asctime() *)
| Getcwd                                            (* os.getcwd() *)
| Isdir (path : string)                             (* os.path.isdir *)
| Rmtree (path : string)                            (* shutil.rmtree *)
| Copytree (src dst : string) (ignore : list string) (* shutil.copytree *)
| Mkdir (path : string)                             (* os.mkdir *)
| Chdir (path : string)                             (* os.chdir *)
| Subprocess (cmd : string)                         (* run cmd in a shell *)
| FileRevision (filename pattern replacement : string).
                                                    (* u.file_revision *)

(** What a call that returns nothing did: completed, or raised. *)
Inductive outcome : Type :=
| Done
| Failed (e : exn).

(** The type of the answer to each call.  A subprocess answers with
    its exit status. *)
Definition answer (c : call) : Type :=
  match c with
  | Print _ => unit
  | Asctime | Getcwd => string
  | Isdir _ => bool
  | Subprocess _ => Z
  | Rmtree _ | Copytree _ _ _ | Mkdir _ | Chdir _ | FileRevision _ _ _ =>
      outcome
  end.

Inductive prog (A : Type) : Type :=
| Ret (a : A)
| Raise (e : exn)
| Vis (c : call) (k : answer c -> prog A).

Arguments Ret {A} a.
Arguments Raise {A} e.
Arguments Vis {A} c k.

Fixpoint bind {A B : Type} (m : prog A) (f : A -> prog B) : prog B :=
  match m with
  | Ret a => f a
  | Raise e => Raise e
  | Vis c k => Vis c (fun r => bind (k r) f)
  end.

Declare Scope prog_scope.
Delimit Scope prog_scope with prog.
Notation "x <- m ;; k" := (bind m (fun x => k))
  (at level 100, m at next level, right associativity) : prog_scope.
Notation "m ;; k" := (bind m (fun _ => k))
  (at level 100, right associativity) : prog_scope.
Open Scope prog_scope.

(** A call whose answer is a value. *)
Definition ask (c : call) : prog (answer c) := Vis c (fun r => Ret r).

(** A call that returns nothing and may raise. *)
Definition perform (c : call) (k : answer c -> outcome) : prog unit :=
  Vis c (fun r => match k r with Done => Ret tt | Failed e => Raise e end).

Definition print (line : string) : prog unit := Vis (Print line) (fun _ => Ret tt).
Definition asctime : prog string := ask Asctime.
Definition getcwd : prog string := ask Getcwd.
Definition isdir (path : string) : prog bool := ask (Isdir path).
Definition rmtree (path : string) : prog unit :=
  perform (Rmtree path) (fun r => r).
Definition copytree (src dst : string) (ignore : list string) : prog unit :=
  perform (Copytree src dst ignore) (fun r => r).
Definition mkdir (path : string) : prog unit :=
  perform (Mkdir path) (fun r => r).
Definition chdir (path : string) : prog unit :=
  perform (Chdir path) (fun r => r).
(** Modelled from the spec: [pkgbld.utils.file_revision], whose source
    is not part of the given tree.  It rewrites in place the lines of
    [filename] that match [pattern]; a missing file is fatal.  What it
    does to the file is left to the world, which answers whether it
    completed or raised. *)
Definition file_revision (filename pattern replacement : string) : prog unit :=
  perform (FileRevision filename pattern replacement) (fun r => r).

(** Modelled from the spec: [pkgbld.utils.os_call(cmd, ignore_error)],
    whose source is not part of the given tree.  It runs [cmd] as an
    external command; a nonzero exit is fatal and propagated, except
    that with [ignore_error=True] the failure is tolerated and the
    caller continues. *)
Definition os_call (cmd : string) (ignore_error : bool) : prog unit :=
  status <- ask (Subprocess cmd) ;;
  if negb (Z.eqb status 0) && negb ignore_error
  then Raise (CalledProcessError cmd status)
  else Ret tt.

Definition ignore_patterns (l : list string) : list string := l.

(** *** Running a program *)

(** What the world answered, as recorded in the trace. *)
Inductive reply : Type :=
| RUnit
| RStr (s : string)
| RBool (b : bool)
| RStatus (z : Z)
| ROutcome (o : outcome).

Definition reply_of (c : call) : answer c -> reply :=
  match c return answer c -> reply with
  | Print _ => fun _ => RUnit
  | Asctime => RStr
  | Getcwd => RStr
  | Isdir _ => RBool
  | Subprocess _ => RStatus
  | Rmtree _ => ROutcome
  | Copytree _ _ _ => ROutcome
  | Mkdir _ => ROutcome
  | Chdir _ => ROutcome
  | FileRevision _ _ _ => ROutcome
  end.

Notation event := (call * reply)%type.

(** A world answers each call given what has happened so far (the
    most recent event first). *)
Definition world : Type := list event -> forall c : call, answer c.

Inductive result (A : Type) : Type :=
| Returned (a : A)
| Raised (e : exn).

Arguments Returned {A} a.
Arguments Raised {A} e.

(** The events of the run of [m] in world [w] after history [h], in
    the order they happen. *)
Fixpoint trace {A : Type} (w : world) (m : prog A) (h : list event)
  : list event :=
  match m with
  | Ret _ | Raise _ => []
  | Vis c k =>
      let r := w h c in
      (c, reply_of c r) :: trace w (k r) ((c, reply_of c r) :: h)
  end.

(** How the run ends. *)
Fixpoint final {A : Type} (w : world) (m : prog A) (h : list event)
  : result A :=
  match m with
  | Ret a => Returned a
  | Raise e => Raised e
  | Vis c k => let r := w h c in final w (k r) ((c, reply_of c r) :: h)
  end.

(* ================================================================= *)
(** ** The release procedure *)

(** [if cond: body]. *)
Definition when (cond : bool) (body : prog unit) : prog unit :=
  if cond then body else Ret tt.

(** [if not isinstance(v, str): raise ValueError(msg)], after which
    [v] is known to be a string; likewise for [bool]. *)
Definition expect_str (v : PyVal) (msg : string) : prog string :=
  match v with
  | PStr s => Ret s
  | _ => Raise (ValueError msg)
  end.

Definition expect_bool (v : PyVal) (msg : string) : prog bool :=
  match v with
  | PBool b => Ret b
  | _ => Raise (ValueError msg)
  end.

(** The elements of [for x in v], or the [TypeError]. *)
Definition iterate (v : PyVal) : prog (list PyVal) :=
  match py_iter v with
  | inr l => Ret l
  | inl e => Raise e
  end.

Definition digit : cset := Range "0" "9".
Definition dot : cset := Single ".".

(** [r'^[0-9]+\.[0-9]+\.[0-9]+$'] *)
Definition pattern : list re_item :=
  [Caret; Plus digit; One dot; Plus digit; One dot; Plus digit; Dollar].

Definition GITHUB_URL : string := "https://github.com/PSLmodels".
Definition ANACONDA_USER : string := "pslmodels".
Definition ANACONDA_CHANNEL : string := ANACONDA_USER.
Definition BUILDS_DIR : string := "pkgbld_output".

Section Release.

(** The two values the module reads from its process environment
    when it is imported: [os.path.expanduser('~')] and
    [os.environ.get("CONDA_TOKEN", None)]. *)
Variable HOME_DIR : string.
Variable ANACONDA_TOKEN : option string.

Definition ANACONDA_TOKEN_FILE : string :=
  os_path_join HOME_DIR ["." ++ ANACONDA_USER ++ "_anaconda_token"].

Definition WORKING_DIR : string :=
  os_path_join HOME_DIR ["temporary_pkgbld_working_dir"].

(** [ANACONDA_TOKEN or ANACONDA_TOKEN_FILE] *)
Definition TOKEN : string :=
  match ANACONDA_TOKEN with
  | Some t => if String.eqb t "" then ANACONDA_TOKEN_FILE else t
  | None => ANACONDA_TOKEN_FILE
  end.

(** The loop that builds [channel_str] from the iterated channels. *)
Definition channel_str (items : list PyVal) : string :=
  fold_left (fun acc channel => acc ++ " --channel " ++ py_str channel)
            items ""
  ++ " --channel defaults --channel " ++ ANACONDA_CHANNEL.

Definition build_cmd (chan_str : string) : string :=
  "conda build conda.recipe/ --token " ++ TOKEN
  ++ " --user " ++ ANACONDA_USER ++ " "
  ++ "--output-folder " ++ BUILDS_DIR
  ++ " --override-channels " ++ chan_str.

Definition release
  (repo_name pkg_name version local dryrun channels : PyVal) : prog unit :=
  (* check parameters *)
  repo_name <- expect_str repo_name "repo_name is not a string object" ;;
  pkg_name <- expect_str pkg_name "pkg_name is not a string object" ;;
  version <- expect_str version "version is not a string object" ;;
  local <- expect_bool local "local is not a boolean object" ;;
  (* [cwd] is bound only when [local]; it is read only when [local] *)
  cwd <- (if local then
            cwd <- getcwd ;;
            when (negb (endswith cwd repo_name))
              (Raise (ValueError
                 ("ERROR: cwd=" ++ cwd ++ " does not correspond to "
                  ++ "REPOSITORY_NAME=" ++ repo_name
                  ++ String newline ""))) ;;
            let local_pkgname := os_path_join "." [pkg_name] in
            is_dir <- isdir local_pkgname ;;
            when (negb is_dir)
              (Raise (ValueError
                 ("ERROR: cwd=" ++ cwd ++ " does not contain "
                  ++ "subdirectory " ++ pkg_name ++ " "))) ;;
            Ret cwd
          else Ret "") ;;
  dryrun <- expect_bool dryrun "dryrun is not a boolean object" ;;
  when (negb (re_match pattern version))
    (Raise (ValueError
       ("version=" ++ version
        ++ " does not have X.Y.Z semantic-versioning pattern"))) ;;

  (* show execution plan *)
  print ": Package-Builder will build model packages for:" ;;
  print (":   repository_name = " ++ repo_name) ;;
  print (":   package_name = " ++ pkg_name) ;;
  print (":   model_version = " ++ version) ;;
  print (":   additional channels= " ++ py_str channels) ;;
  (if local then
     print ": Package-Builder will install package on local computer"
   else
     print ": Package-Builder will upload model packages to:" ;;
     print (":   Anaconda channel = " ++ ANACONDA_CHANNEL) ;;
     print (":   using token in file = " ++ ANACONDA_TOKEN_FILE)) ;;
  if dryrun then
    print ": Package-Builder is quitting"
  else

  (* show date and time *)
  now <- asctime ;;
  print (": Package-Builder is starting at " ++ now) ;;

  (* remove any old working directory *)
  old <- isdir WORKING_DIR ;;
  when old (rmtree WORKING_DIR) ;;

  (* copy model source code to working directory *)
  (if local then
     (* copy source tree on local computer *)
     print ": Package-Builder is copying local source code" ;;
     let destination := os_path_join WORKING_DIR [repo_name] in
     let ignorepattern := ignore_patterns ["*.pyc"; "*.html"; "test_*"] in
     copytree cwd destination ignorepattern ;;
     chdir WORKING_DIR
   else
     (* clone code for model_version from model repository *)
     print (": Package-Builder is cloning repository code "
            ++ "for " ++ version) ;;
     mkdir WORKING_DIR ;;
     chdir WORKING_DIR ;;
     let cmd := "git clone --branch " ++ version ++ " --depth 1 "
                ++ GITHUB_URL ++ "/" ++ repo_name ++ "/" in
     os_call cmd false) ;;
  chdir repo_name ;;

  (* specify version in several repository files *)
  print ": Package-Builder is setting version" ;;
  (* ... specify version in meta.yaml file *)
  file_revision (os_path_join "conda.recipe" ["meta.yaml"])
                "version: .*"
                ("version: " ++ version) ;;
  (* ... specify version in setup.py file *)
  file_revision "setup.py"
                "version = .*"
                ("version = " ++ String dquote version ++ String dquote "") ;;
  (* ... specify version in package_name/__init__.py file *)
  file_revision (os_path_join pkg_name ["__init__.py"])
                "__version__ = .*"
                ("__version__ = " ++ String dquote version
                 ++ String dquote "") ;;

  items <- iterate (py_or channels (PList [])) ;;
  let channel_str := channel_str items in

  (if local then
     os_call "conda config --set anaconda_upload no" false
   else
     os_call "conda config --set anaconda_upload yes" false) ;;

  (* build and upload model package for each Python version and OS
     platform *)
  print ": Package-Builder is building package" ;;
  let cmd := build_cmd channel_str in
  os_call cmd false ;;

  when local
    ((* do uninstall and install on local computer *)
     print ": Package-Builder is uninstalling any existing package" ;;
     let cmd := "conda uninstall " ++ pkg_name ++ " --yes" in
     os_call cmd true ;;
     print ": Package-Builder is installing package on local computer" ;;
     let pkg_dir := os_path_join "file://"
                      [WORKING_DIR; repo_name; "pkgbld_output"] in
     let cmd := "conda install --channel " ++ pkg_dir ++ " "
                ++ pkg_name ++ "=" ++ version ++ " --yes" in
     os_call cmd false) ;;

  print ": Package-Builder is cleaning-up" ;;

  (* remove local packages made during this process *)
  let cmd := "conda build purge" in
  os_call cmd false ;;

  (* remove working directory and its contents *)
  chdir HOME_DIR ;;
  rmtree WORKING_DIR ;;

  now <- asctime ;;
  print (": Package-Builder is finishing at " ++ now).

End Release.

(* ================================================================= *)
(** ** The X.Y.Z shape of a version string *)

(** The strings that the pattern is meant to describe: three nonempty
    runs of decimal digits separated by single dots, and nothing
    else. *)
Fixpoint all_digits (s : string) : bool :=
  match s with
  | EmptyString => true
  | String c s' => in_cset digit c && all_digits s'
  end.

Definition number (s : string) : Prop := s <> "" /\ all_digits s = true.

Definition X_Y_Z (s : string) : Prop :=
  exists x y z,
    number x /\ number y /\ number z /\ s = x ++ "." ++ y ++ "." ++ z.

Definition version_char (c : ascii) : bool := in_cset digit c || in_cset dot c.

Fixpoint all_chars (f : ascii -> bool) (s : string) : bool :=
  match s with
  | EmptyString => true
  | String c s' => f c && all_chars f s'
  end.

(* ================================================================= *)
(** ** Properties of runs *)

(** [wp w m h Q]: the run of [m] in [w] after history [h] ends with
    a history and a result that satisfy [Q].  Histories are kept in
    reverse, the most recent event first. *)
Fixpoint wp {A : Type} (w : world) (m : prog A) (h : list event)
  (Q : list event -> result A -> Prop) : Prop :=
  match m with
  | Ret a => Q h (Returned a)
  | Raise e => Q h (Raised e)
  | Vis c k => wp w (k (w h c)) ((c, reply_of c (w h c)) :: h) Q
  end.

Definition then_ {A B} (w : world) (f : A -> prog B)
  (Q : list event -> result B -> Prop) : list event -> result A -> Prop :=
  fun h r =>
    match r with
    | Returned a => wp w (f a) h Q
    | Raised e => Q h (Raised e)
    end.

(** A call that may raise: either it failed and the run ends here, or
    it completed and the run continues. *)
Definition after_call {B} (w : world) (h : list event)
  (Q : list event -> result B -> Prop) (c : call) (f : unit -> prog B)
  : Prop :=
  (forall e, Q ((c, ROutcome (Failed e)) :: h) (Raised e)) /\
  wp w (f tt) ((c, ROutcome Done) :: h) Q.

(* ================================================================= *)
(** ** Events of interest *)

(** The build step: the one command that starts with
    [conda build conda.recipe/]. *)
Definition is_build (e : event) : bool :=
  match fst e with
  | Subprocess cmd => startswith cmd "conda build conda.recipe/"
  | _ => false
  end.

(** A version-stamping operation. *)
Definition is_stamp (e : event) : bool :=
  match fst e with
  | FileRevision _ _ _ => true
  | _ => false
  end.

(** Reading the current directory and testing for a directory: the
    only calls that the parameter check makes. *)
Definition is_query (e : event) : bool :=
  match fst e with
  | Getcwd | Isdir _ => true
  | _ => false
  end.

Definition is_print (e : event) : bool :=
  match fst e with
  | Print _ => true
  | _ => false
  end.

(** The first event that satisfies [f], with the events before and
    after it. *)
Fixpoint split_at (f : event -> bool) (l : list event)
  : option (list event * event * list event) :=
  match l with
  | [] => None
  | e :: l' =>
      if f e then Some ([], e, l')
      else match split_at f l' with
           | Some (pre, x, post) => Some (e :: pre, x, post)
           | None => None
           end
  end.

(** The three stamping operations for version [v] of package [p]. *)
Definition stamps (p v : string) : list event :=
  [ (FileRevision "conda.recipe/meta.yaml" "version: .*" ("version: " ++ v),
     ROutcome Done);
    (FileRevision "setup.py" "version = .*"
       ("version = " ++ String dquote v ++ String dquote ""),
     ROutcome Done);
    (FileRevision (os_path_join p ["__init__.py"]) "__version__ = .*"
       ("__version__ = " ++ String dquote v ++ String dquote ""),
     ROutcome Done) ].

(** The channel flags of a command line, one per channel. *)
Fixpoint channel_args (l : list string) : string :=
  match l with
  | [] => ""
  | c :: l' => " --channel " ++ c ++ channel_args l'
  end.

(** *** Cleanup after the build *)

Definition is_purge (e : event) : bool :=
  match fst e with
  | Subprocess cmd => String.eqb cmd "conda build purge"
  | _ => false
  end.

Definition is_rmtree (e : event) : bool :=
  match fst e with
  | Rmtree _ => true
  | _ => false
  end.

(** A world with a fixed current directory, a fixed set of existing
    directories and a fixed exit status for every command, in which
    every filesystem operation completes. *)
Definition sim_world (cwd : string) (dirs : list string)
  (exit_status : string -> Z) : world :=
  fun _ c =>
    match c return answer c with
    | Print _ => tt
    | Asctime => "Wed Nov  4 10:05:00 2026"
    | Getcwd => cwd
    | Isdir path => existsb (String.eqb path) dirs
    | Subprocess cmd => exit_status cmd
    | Rmtree _ => Done
    | Copytree _ _ _ => Done
    | Mkdir _ => Done
    | Chdir _ => Done
    | FileRevision _ _ _ => Done
    end.

(** Every command succeeds. *)
Definition quiet_world : world :=
  sim_world "/home/u/Tax-Calculator" ["./taxcalc"] (fun _ => 0%Z).

(** The build command exits with status 1. *)
Definition failing_build_world : world :=
  sim_world "/home/u/Tax-Calculator" ["./taxcalc"]
    (fun cmd => if startswith cmd "conda build conda.recipe/"
                then 1%Z else 0%Z).

Definition failing_build_run : prog unit :=
  release "/home/u" None (PStr "Tax-Calculator") (PStr "taxcalc")
          (PStr "1.0.1") (PBool false) (PBool false) PNone.

(** The events that end a completed run. *)
Definition cleanup (HOME_DIR now : string) : list event :=
  [ (Subprocess "conda build purge", RStatus 0);
    (Chdir HOME_DIR, ROutcome Done);
    (Rmtree (WORKING_DIR HOME_DIR), ROutcome Done);
    (Asctime, RStr now);
    (Print (": Package-Builder is finishing at " ++ now), RUnit) ].

(** *** The local install *)

Definition uninstall_cmd (pkg_name : string) : string :=
  "conda uninstall " ++ pkg_name ++ " --yes".

Definition install_cmd (HOME_DIR repo_name pkg_name version : string)
  : string :=
  "conda install --channel "
  ++ os_path_join "file://"
       [WORKING_DIR HOME_DIR; repo_name; "pkgbld_output"]
  ++ " " ++ pkg_name ++ "=" ++ version ++ " --yes".

Definition is_install (e : event) : bool :=
  match fst e with
  | Subprocess cmd => startswith cmd "conda install "
  | _ => false
  end.

(** *** The parameter check *)

(** The directory layout that local mode requires, as [release] tests
    it: the current directory, as a string, ends with the repository
    name, and [./<pkg_name>] is a directory. *)
Definition local_layout_ok (w : world) (r p : string) : bool :=
  let cwd := w [] Getcwd in
  endswith cwd r
  && w [(Getcwd, RStr cwd)] (Isdir (os_path_join "." [p])).

(** The conditions under which the parameter check lets a request
    through.  The [channels] argument is not among them. *)
Definition parameters_valid (w : world)
  (repo_name pkg_name version local dryrun : PyVal) : bool :=
  match repo_name, pkg_name, version, local, dryrun with
  | PStr r, PStr p, PStr v, PBool l, PBool _ =>
      (if l then local_layout_ok w r p else true) && re_match pattern v
  | _, _, _, _, _ => false
  end.

(** The message of the [ValueError] for each violated condition. *)
Inductive rejects (w : world)
  (repo_name pkg_name version local dryrun : PyVal) : string -> Prop :=
| reject_repo_name :
    isinstance_str repo_name = false ->
    rejects w repo_name pkg_name version local dryrun
      "repo_name is not a string object"
| reject_pkg_name :
    isinstance_str pkg_name = false ->
    rejects w repo_name pkg_name version local dryrun
      "pkg_name is not a string object"
| reject_version_type :
    isinstance_str version = false ->
    rejects w repo_name pkg_name version local dryrun
      "version is not a string object"
| reject_local :
    isinstance_bool local = false ->
    rejects w repo_name pkg_name version local dryrun
      "local is not a boolean object"
| reject_cwd r :
    repo_name = PStr r -> local = PBool true ->
    endswith (w [] Getcwd) r = false ->
    rejects w repo_name pkg_name version local dryrun
      ("ERROR: cwd=" ++ w [] Getcwd
       ++ " does not correspond to REPOSITORY_NAME=" ++ r
       ++ String newline "")
| reject_subdir p :
    pkg_name = PStr p -> local = PBool true ->
    w [(Getcwd, RStr (w [] Getcwd))] (Isdir (os_path_join "." [p])) = false ->
    rejects w repo_name pkg_name version local dryrun
      ("ERROR: cwd=" ++ w [] Getcwd
       ++ " does not contain subdirectory " ++ p ++ " ")
| reject_dryrun :
    isinstance_bool dryrun = false ->
    rejects w repo_name pkg_name version local dryrun
      "dryrun is not a boolean object"
| reject_version_shape v :
    version = PStr v -> re_match pattern v = false ->
    rejects w repo_name pkg_name version local dryrun
      ("version=" ++ v
       ++ " does not have X.Y.Z semantic-versioning pattern").

(** *** Local mode *)

(** The final segment of a path: what follows its last separator. *)
Fixpoint final_segment (path : string) : string :=
  match path with
  | EmptyString => ""
  | String c rest =>
      if Ascii.eqb c "/" || contains "/" rest then final_segment rest
      else path
  end.

(** The current directory is one whose name only ends with the
    repository name. *)
Definition suffix_world : world :=
  sim_world "/home/u/My-Tax-Calculator" ["./taxcalc"] (fun _ => 0%Z).

Definition suffix_run : prog unit :=
  release "/home/u" None (PStr "Tax-Calculator") (PStr "taxcalc")
          (PStr "1.0.1") (PBool true) (PBool true) PNone.

(** *** The plan and the dry run *)

(** The lines of the execution plan. *)
Definition plan (HOME_DIR repo_name pkg_name version : string)
  (local : bool) (channels : PyVal) : list string :=
  [ ": Package-Builder will build model packages for:";
    ":   repository_name = " ++ repo_name;
    ":   package_name = " ++ pkg_name;
    ":   model_version = " ++ version;
    ":   additional channels= " ++ py_str channels ]
  ++ (if local
      then [ ": Package-Builder will install package on local computer" ]
      else [ ": Package-Builder will upload model packages to:";
             ":   Anaconda channel = " ++ ANACONDA_CHANNEL;
             ":   using token in file = " ++ ANACONDA_TOKEN_FILE HOME_DIR ]).

Definition printed (line : string) : event := (Print line, RUnit).

(** *** The version pattern *)

Definition version_with_newline : string := "1.0.1" ++ String newline "".

(** *** Concrete requests *)

(** A local build of Tax-Calculator 1.0.1 with one extra channel. *)
Definition local_run : prog unit :=
  release "/home/u" None (PStr "Tax-Calculator") (PStr "taxcalc")
          (PStr "1.0.1") (PBool true) (PBool false)
          (PList [PStr "conda-forge"]).

(** The package was not installed before: the uninstall exits with
    status 1. *)
Definition fresh_machine : world :=
  sim_world "/home/u/Tax-Calculator" ["./taxcalc"]
    (fun cmd => if startswith cmd "conda uninstall " then 1%Z else 0%Z).

(** The current directory is the repository, without the package
    directory. *)
Definition no_package_dir : world :=
  sim_world "/home/u/Tax-Calculator" [] (fun _ => 0%Z).

Definition nowhere : event := (Getcwd, RUnit).

(** *** Source acquisition, directories and commands *)

Definition is_chdir (e : event) : bool :=
  match fst e with
  | Chdir _ => true
  | _ => false
  end.

(** The clone of the remote repository. *)
Definition is_clone (e : event) : bool :=
  match fst e with
  | Subprocess cmd => startswith cmd "git clone "
  | _ => false
  end.

(** Putting the source in place: creating the working directory or
    copying the local tree into it. *)
Definition is_acquire (e : event) : bool :=
  match fst e with
  | Mkdir _ | Copytree _ _ _ => true
  | _ => false
  end.

Definition is_subprocess (e : event) : bool :=
  match fst e with
  | Subprocess _ => true
  | _ => false
  end.


(** A call that raised. *)
Definition is_failed (e : event) : bool :=
  match snd e with
  | ROutcome (Failed _) => true
  | _ => false
  end.

(** A call that changes the filesystem or the current directory. *)
Definition is_fs_change (e : event) : bool :=
  match fst e with
  | Rmtree _ | Mkdir _ | Copytree _ _ _ | Chdir _ => true
  | _ => false
  end.

(** [R] holds at every event that satisfies [f], of the events before
    it, the event and the events after it. *)
Fixpoint each_split (f : event -> bool)
  (R : list event -> event -> list event -> Prop)
  (pre l : list event) : Prop :=
  match l with
  | [] => True
  | e :: post =>
      if f e then R pre e post /\ each_split f R (pre ++ [e]) post
      else each_split f R (pre ++ [e]) post
  end.

Definition clone_cmd (repo_name version : string) : string :=
  "git clone --branch " ++ version ++ " --depth 1 "
  ++ GITHUB_URL ++ "/" ++ repo_name ++ "/".

Definition upload_cmd (local : bool) : string :=
  "conda config --set anaconda_upload " ++ (if local then "no" else "yes").

(** What the filesystem calls of [release] are called with.  The
    destination of the copy is [os.path.join(WORKING_DIR, repo_name)]:
    below the working directory for a relative repository name, the
    repository name itself for an absolute one. *)
Definition call_target (HOME_DIR : string) (w : world)
  (repo_name local : PyVal) (c : call) : Prop :=
  match c with
  | Rmtree path => path = WORKING_DIR HOME_DIR
  | Mkdir path => path = WORKING_DIR HOME_DIR /\ local = PBool false
  | Copytree src dst ignore =>
      local = PBool true /\ src = w [] Getcwd /\
      ignore = ["*.pyc"; "*.html"; "test_*"] /\
      exists r,
        repo_name = PStr r /\
        dst = os_path_join (WORKING_DIR HOME_DIR) [r] /\
        (startswith r sep = false ->
         dst = WORKING_DIR HOME_DIR ++ "/" ++ r) /\
        (startswith r sep = true -> dst = r)
  | Chdir path =>
      path = WORKING_DIR HOME_DIR \/ path = HOME_DIR \/
      repo_name = PStr path
  | _ => True
  end.

Definition is_copytree (e : event) : bool :=
  match fst e with
  | Copytree _ _ _ => true
  | _ => false
  end.

Definition is_ascii (s : string) : bool :=
  all_chars (fun b => (nat_of_ascii b <? 128)%nat) s.

(** One character held as UTF-8: a byte that starts a sequence,
    followed by continuation bytes only. *)
Definition one_character (g : string) : Prop :=
  exists b k,
    g = String b k /\ is_continuation b = false /\
    all_chars is_continuation k = true.

(** Two characters outside ASCII passed for [channels]. *)
Definition accented_channels_run : prog unit :=
  release "/home/u" None (PStr "Tax-Calculator") (PStr "taxcalc")
          (PStr "1.0.1") (PBool false) (PBool false)
          (PStr (String (ascii_of_nat 110)
                   (String (ascii_of_nat 195)
                      (String (ascii_of_nat 169) "")))).

(** A repository name given as an absolute path. *)
Definition absolute_repo_run : prog unit :=
  release "/home/u" None (PStr "/Tax-Calculator") (PStr "taxcalc")
          (PStr "1.0.1") (PBool true) (PBool false) PNone.

(** The commands of a run that goes through the whole procedure. *)
Definition commands (HOME_DIR : string) (ANACONDA_TOKEN : option string)
  (r p v : string) (local : bool) (items : list PyVal) : list call :=
  ((if local then [] else [Subprocess (clone_cmd r v)])
   ++ [ Subprocess (upload_cmd local);
        Subprocess (build_cmd HOME_DIR ANACONDA_TOKEN (channel_str items)) ]
   ++ (if local
       then [ Subprocess (uninstall_cmd p);
              Subprocess (install_cmd HOME_DIR r p v) ]
       else [])
   ++ [ Subprocess "conda build purge" ])%list.

(** The working directory is left over from an earlier run. *)
Definition stale_dir_world : world :=
  sim_world "/home/u/Tax-Calculator"
    ["./taxcalc"; "/home/u/temporary_pkgbld_working_dir"] (fun _ => 0%Z).

(** The recipe file is missing: stamping it raises. *)
Definition missing_recipe_world : world :=
  fun _ c =>
    match c return answer c with
    | Print _ => tt
    | Asctime => "Wed Nov  4 10:05:00 2026"
    | Getcwd => "/home/u/Tax-Calculator"
    | Isdir path => String.eqb path "./taxcalc"
    | Subprocess _ => 0%Z
    | Rmtree _ => Done
    | Copytree _ _ _ => Done
    | Mkdir _ => Done
    | Chdir _ => Done
    | FileRevision filename _ _ =>
        if String.eqb filename "conda.recipe/meta.yaml"
        then Failed (OSError "No such file: conda.recipe/meta.yaml")
        else Done
    end.

(** A remote build of Tax-Calculator 1.0.1. *)
Definition remote_run : prog unit :=
  release "/home/u" None (PStr "Tax-Calculator") (PStr "taxcalc")
          (PStr "1.0.1") (PBool false) (PBool false) PNone.


(** A command that changes what is installed on the local computer. *)
Definition is_local_install (e : event) : bool :=
  match fst e with
  | Subprocess cmd =>
      startswith cmd "conda uninstall " || startswith cmd "conda install "
  | _ => false
  end.

(* ================================================================= *)
(** ** What the version pattern accepts *)

#[local] Arguments in_cset : simpl never.

Lemma append_assoc (a b c : string) : (a ++ b) ++ c = a ++ (b ++ c).
Proof. induction a as [|x a IH]; simpl; [reflexivity | now rewrite IH]. Qed.

Lemma append_nil_r (a : string) : a ++ "" = a.
Proof. induction a as [|x a IH]; simpl; [reflexivity | now rewrite IH]. Qed.

Lemma all_chars_app f a b :
  all_chars f (a ++ b) = all_chars f a && all_chars f b.
Proof.
  induction a as [|x a IH]; simpl; [reflexivity |].
  now rewrite IH, andb_assoc.
Qed.

Lemma all_digits_version_chars s :
  all_digits s = true -> all_chars version_char s = true.
Proof.
  induction s as [|c s IH]; simpl; [reflexivity |].
  intros H. apply andb_true_iff in H as [Hc Hs].
  rewrite (IH Hs). unfold version_char. now rewrite Hc.
Qed.

Lemma X_Y_Z_chars s : X_Y_Z s -> all_chars version_char s = true.
Proof.
  intros (x & y & z & [_ Hx] & [_ Hy] & [_ Hz] & ->).
  rewrite !all_chars_app.
  rewrite (all_digits_version_chars x Hx), (all_digits_version_chars y Hy),
    (all_digits_version_chars z Hz).
  reflexivity.
Qed.

(** One or more digits, then the continuation. *)
Lemma plus_loop_digit k s :
  plus_loop digit k s = true <->
  exists d rest, number d /\ s = d ++ rest /\ k rest = true.
Proof.
  induction s as [|c s IH]; simpl.
  - split; [discriminate |].
    intros (d & rest & [Hne _] & Heq & _).
    destruct d; [now elim Hne | discriminate].
  - rewrite andb_true_iff, orb_true_iff, IH. split.
    + intros [Hc [(d & rest & [Hne Hd] & -> & Hk) | Hk]].
      * exists (String c d), rest. repeat split; simpl; try easy.
        now rewrite Hc, Hd.
      * exists (String c ""), s. repeat split; simpl; try easy.
        now rewrite Hc.
    + intros (d & rest & [Hne Hd] & Heq & Hk).
      destruct d as [|c' d]; [now elim Hne |].
      simpl in Heq, Hd. injection Heq as <- ->.
      apply andb_true_iff in Hd as [Hc Hd]. split; [assumption |].
      destruct d as [|c2 d].
      * now right.
      * left. exists (String c2 d), rest. repeat split; easy.
Qed.

Lemma one_dot k s :
  match s with
  | EmptyString => false
  | String c s' => in_cset dot c && k s'
  end = true <-> exists rest, s = "." ++ rest /\ k rest = true.
Proof.
  destruct s as [|c s]; simpl.
  - split; [discriminate | now intros (? & ? & _)].
  - rewrite andb_true_iff. split.
    + intros [Hc Hk]. apply Ascii.eqb_eq in Hc as ->. now exists s.
    + intros (rest & Heq & Hk). injection Heq as -> ->. now split.
Qed.

Lemma at_dollar_spec s :
  at_dollar s = true <-> s = "" \/ s = String newline "".
Proof.
  destruct s as [|c [|c' s]]; simpl.
  - split; auto.
  - split.
    + intros H. apply Ascii.eqb_eq in H as ->. now right.
    + intros [H | H]; [discriminate |]. injection H as ->. reflexivity.
  - split; [discriminate | intros [H | H]; discriminate].
Qed.

(** X1.  What [re.match(pattern, s)] accepts: the X.Y.Z strings and, because
    of how [$] is defined, also an X.Y.Z string followed by one
    newline. *)
Theorem re_match_pattern_spec (s : string) :
  re_match pattern s = true <->
  X_Y_Z s \/ exists t, X_Y_Z t /\ s = t ++ String newline "".
Proof.
  unfold re_match, pattern. simpl match_here.
  rewrite plus_loop_digit. split.
  - intros (x & r1 & Hx & -> & H1).
    apply one_dot in H1 as (r2 & -> & H2).
    apply plus_loop_digit in H2 as (y & r3 & Hy & -> & H3).
    apply one_dot in H3 as (r4 & -> & H4).
    apply plus_loop_digit in H4 as (z & r5 & Hz & -> & H5).
    rewrite andb_true_r in H5. apply at_dollar_spec in H5 as [-> | ->].
    + left. exists x, y, z. now rewrite append_nil_r.
    + right. exists (x ++ "." ++ y ++ "." ++ z). split.
      * now exists x, y, z.
      * now rewrite !append_assoc.
  - assert (Hmatch : forall x y z rest,
      number x -> number y -> number z -> at_dollar rest = true ->
      exists d r, number d /\
        x ++ "." ++ y ++ "." ++ z ++ rest = d ++ r /\
        match r with
        | EmptyString => false
        | String c s' =>
            in_cset dot c &&
            plus_loop digit (fun s0 =>
              match s0 with
              | EmptyString => false
              | String c0 s'0 =>
                  in_cset dot c0 &&
                  plus_loop digit (fun s1 => at_dollar s1 && true) s'0
              end) s'
        end = true).
    { intros x y z rest Hx Hy Hz Hr.
      exists x, ("." ++ y ++ "." ++ z ++ rest).
      split; [exact Hx | split; [reflexivity |]].
      simpl.
      apply plus_loop_digit. exists y, ("." ++ z ++ rest).
      split; [exact Hy | split; [reflexivity |]].
      simpl.
      apply plus_loop_digit. exists z, rest.
      split; [exact Hz | split; [reflexivity |]].
      now rewrite Hr. }
    intros [(x & y & z & Hx & Hy & Hz & ->)
           | (t & (x & y & z & Hx & Hy & Hz & ->) & ->)].
    + destruct (Hmatch x y z "" Hx Hy Hz eq_refl) as (d & r & Hd & Heq & Hk).
      rewrite append_nil_r in Heq. now exists d, r.
    + destruct (Hmatch x y z (String newline "") Hx Hy Hz eq_refl)
        as (d & r & Hd & Heq & Hk).
      exists d, r. split; [exact Hd | split; [| exact Hk]].
      now rewrite <- Heq, !append_assoc.
Qed.

(* ================================================================= *)
(** ** Rules for running programs *)

Lemma wp_run {A} (w : world) (m : prog A) h Q :
  wp w m h Q <-> Q (rev (trace w m h) ++ h)%list (final w m h).
Proof.
  revert h; induction m as [a | e | c k IH]; intros h; simpl; try tauto.
  rewrite IH, <- app_assoc. reflexivity.
Qed.

(** The form used for whole runs: a property of the trace, in the
    order the events happen, and of the result. *)
Lemma run_spec {A} (w : world) (m : prog A)
  (P : list event -> result A -> Prop) :
  wp w m [] (fun h r => P (rev h) r) -> P (trace w m []) (final w m []).
Proof.
  intros H. apply wp_run in H.
  now rewrite app_nil_r, rev_involutive in H.
Qed.

Lemma wp_bind {A B} (w : world) (m : prog A) (f : A -> prog B) h Q :
  wp w (bind m f) h Q <-> wp w m h (then_ w f Q).
Proof.
  revert h; induction m as [a | e | c k IH]; intros h; simpl; try tauto.
  apply IH.
Qed.

Lemma wp_bind_assoc {A B C} (w : world) (m : prog A) (f : A -> prog B)
  (g : B -> prog C) h Q :
  wp w (bind (bind m f) g) h Q <-> wp w (bind m (fun a => bind (f a) g)) h Q.
Proof.
  revert h; induction m as [a | e | c k IH]; intros h; simpl; try tauto.
  apply IH.
Qed.

Section Rules.
Context {B : Type} (w : world) (h : list event)
        (Q : list event -> result B -> Prop).

Lemma wp_ret_k {A} (a : A) (f : A -> prog B) :
  wp w (f a) h Q -> wp w (bind (Ret a) f) h Q.
Proof. trivial. Qed.

Lemma wp_raise_k {A} (e : exn) (f : A -> prog B) :
  Q h (Raised e) -> wp w (bind (Raise e) f) h Q.
Proof. trivial. Qed.

Lemma wp_print_k (line : string) (f : unit -> prog B) :
  wp w (f tt) ((Print line, RUnit) :: h) Q ->
  wp w (bind (print line) f) h Q.
Proof. simpl. now destruct (w h (Print line)). Qed.

Lemma wp_asctime_k (f : string -> prog B) :
  (forall now, wp w (f now) ((Asctime, RStr now) :: h) Q) ->
  wp w (bind asctime f) h Q.
Proof. intros H. apply H. Qed.

Lemma wp_getcwd_k (f : string -> prog B) :
  wp w (f (w h Getcwd)) ((Getcwd, RStr (w h Getcwd)) :: h) Q ->
  wp w (bind getcwd f) h Q.
Proof. trivial. Qed.

Lemma wp_isdir_k (path : string) (f : bool -> prog B) :
  wp w (f (w h (Isdir path)))
       ((Isdir path, RBool (w h (Isdir path))) :: h) Q ->
  wp w (bind (isdir path) f) h Q.
Proof. trivial. Qed.

Lemma wp_rmtree_k path f :
  after_call w h Q (Rmtree path) f -> wp w (bind (rmtree path) f) h Q.
Proof. intros [Hf Hd]. simpl. destruct (w h (Rmtree path)); simpl; auto. Qed.

Lemma wp_copytree_k src dst ign f :
  after_call w h Q (Copytree src dst ign) f ->
  wp w (bind (copytree src dst ign) f) h Q.
Proof.
  intros [Hf Hd]. simpl. destruct (w h (Copytree src dst ign)); simpl; auto.
Qed.

Lemma wp_mkdir_k path f :
  after_call w h Q (Mkdir path) f -> wp w (bind (mkdir path) f) h Q.
Proof. intros [Hf Hd]. simpl. destruct (w h (Mkdir path)); simpl; auto. Qed.

Lemma wp_chdir_k path f :
  after_call w h Q (Chdir path) f -> wp w (bind (chdir path) f) h Q.
Proof. intros [Hf Hd]. simpl. destruct (w h (Chdir path)); simpl; auto. Qed.

Lemma wp_file_revision_k fn pat repl f :
  after_call w h Q (FileRevision fn pat repl) f ->
  wp w (bind (file_revision fn pat repl) f) h Q.
Proof.
  intros [Hf Hd]. simpl. destruct (w h (FileRevision fn pat repl)); simpl; auto.
Qed.

(** [os_call]: a nonzero exit status ends the run unless errors are
    ignored. *)
Lemma wp_os_call_k cmd (ignore_error : bool) (f : unit -> prog B) :
  (forall status, status <> 0%Z -> ignore_error = false ->
     Q ((Subprocess cmd, RStatus status) :: h)
       (Raised (CalledProcessError cmd status))) ->
  (forall status, status = 0%Z \/ ignore_error = true ->
     wp w (f tt) ((Subprocess cmd, RStatus status) :: h) Q) ->
  wp w (bind (os_call cmd ignore_error) f) h Q.
Proof.
  intros Hf Hd. simpl. generalize (w h (Subprocess cmd)). intros st.
  destruct (Z.eqb_spec st 0) as [-> | Hne]; simpl.
  - apply Hd. now left.
  - destruct ignore_error; simpl.
    + apply Hd. now right.
    + now apply Hf.
Qed.

Lemma wp_when_k (cond : bool) (body : prog unit) (f : unit -> prog B) :
  (cond = true -> wp w (bind body f) h Q) ->
  (cond = false -> wp w (f tt) h Q) ->
  wp w (bind (when cond body) f) h Q.
Proof. destruct cond; simpl; auto. Qed.

Lemma wp_expect_str_k v msg (f : string -> prog B) :
  (isinstance_str v = false -> Q h (Raised (ValueError msg))) ->
  (forall s, v = PStr s -> wp w (f s) h Q) ->
  wp w (bind (expect_str v msg) f) h Q.
Proof. destruct v; simpl; auto. Qed.

Lemma wp_expect_bool_k v msg (f : bool -> prog B) :
  (isinstance_bool v = false -> Q h (Raised (ValueError msg))) ->
  (forall b, v = PBool b -> wp w (f b) h Q) ->
  wp w (bind (expect_bool v msg) f) h Q.
Proof. destruct v; simpl; auto. Qed.

Lemma wp_iterate_k v (f : list PyVal -> prog B) :
  (forall e, py_iter v = inl e -> Q h (Raised e)) ->
  (forall items, py_iter v = inr items -> wp w (f items) h Q) ->
  wp w (bind (iterate v) f) h Q.
Proof. unfold iterate. destruct (py_iter v); simpl; auto. Qed.

End Rules.

(** The last statement of a program is a statement followed by
    nothing. *)
Lemma wp_last {A} (w : world) (m : prog A) h Q :
  wp w (bind m (fun a => Ret a)) h Q -> wp w m h Q.
Proof.
  revert h; induction m as [a | e | c k IH]; intros h; simpl; auto.
Qed.

(** One step of a run: the rule for the statement at the head of the
    program. *)
Ltac wp_step :=
  lazymatch goal with
  | |- wp _ (bind (bind _ _) _) _ _ => apply wp_bind_assoc
  | |- wp _ (bind (Ret _) _) _ _ => apply wp_ret_k
  | |- wp _ (bind (Raise _) _) _ _ => apply wp_raise_k
  | |- wp _ (bind (print _) _) _ _ => apply wp_print_k
  | |- wp _ (bind asctime _) _ _ => apply wp_asctime_k; intros ?now
  | |- wp _ (bind getcwd _) _ _ => apply wp_getcwd_k
  | |- wp _ (bind (isdir _) _) _ _ => apply wp_isdir_k
  | |- wp _ (bind (rmtree _) _) _ _ =>
      apply wp_rmtree_k; split; [intros ?e |]
  | |- wp _ (bind (copytree _ _ _) _) _ _ =>
      apply wp_copytree_k; split; [intros ?e |]
  | |- wp _ (bind (mkdir _) _) _ _ =>
      apply wp_mkdir_k; split; [intros ?e |]
  | |- wp _ (bind (chdir _) _) _ _ =>
      apply wp_chdir_k; split; [intros ?e |]
  | |- wp _ (bind (file_revision _ _ _) _) _ _ =>
      apply wp_file_revision_k; split; [intros ?e |]
  | |- wp _ (bind (os_call _ _) _) _ _ =>
      let Hst := fresh "Hst" in
      let Hign := fresh "Hign" in
      apply wp_os_call_k;
      [intros ?st Hst Hign; try discriminate Hign | intros ?st Hst]
  | |- wp _ (bind (when _ _) _) _ _ =>
      let Hc := fresh "Hc" in
      apply wp_when_k; intros Hc; try discriminate Hc
  | |- wp _ (bind (expect_str _ _) _) _ _ =>
      let Hty := fresh "Hty" in
      let Hv := fresh "Hv" in
      apply wp_expect_str_k;
      [intros Hty; try discriminate Hty
      | intros ?s Hv; try (injection Hv as <-)]
  | |- wp _ (bind (expect_bool _ _) _) _ _ =>
      let Hty := fresh "Hty" in
      let Hv := fresh "Hv" in
      apply wp_expect_bool_k;
      [intros Hty; try discriminate Hty
      | intros ?b Hv; try (injection Hv as <-)]
  | |- wp _ (bind (iterate _) _) _ _ =>
      apply wp_iterate_k; [intros ?e ?Hit | intros ?items ?Hit]
  | |- wp _ (bind (if ?b then _ else _) _) _ _ =>
      lazymatch b with
      | true => cbv iota
      | false => cbv iota
      | _ => destruct b eqn:?
      end
  | |- wp _ (if ?b then _ else _) _ _ =>
      lazymatch b with
      | true => cbv iota
      | false => cbv iota
      | _ => destruct b eqn:?
      end
  | |- wp _ (bind (let _ := _ in _) _) _ _ => cbv zeta
  | |- wp _ (let _ := _ in _) _ _ => cbv zeta
  | |- wp _ (Ret _) _ _ => cbn [wp]
  | |- wp _ (Raise _) _ _ => cbn [wp]
  | |- wp _ (bind _ _) _ _ => fail "statement not covered"
  | |- wp _ _ _ _ => apply wp_last
  end; cbv beta.

(** Runs a program from its first statement to every place where it
    can end, leaving the property to show of the trace and result
    there. *)
Ltac wp_run_all := repeat wp_step; cbn [rev app].

#[local] Arguments endswith : simpl never.
#[local] Arguments re_match : simpl never.
#[local] Arguments os_path_join : simpl never.
#[local] Arguments WORKING_DIR : simpl never.
#[local] Arguments ANACONDA_TOKEN_FILE : simpl never.
#[local] Arguments TOKEN : simpl never.
#[local] Arguments channel_str : simpl never.
#[local] Arguments py_str : simpl never.

Lemma split_at_unique f l pre e post :
  length (filter f l) <= 1 ->
  l = (pre ++ e :: post)%list -> f e = true ->
  split_at f l = Some (pre, e, post).
Proof.
  intros Hone -> He. induction pre as [|x pre IH]; simpl in *.
  - now rewrite He.
  - destruct (f x) eqn:Hx.
    + exfalso. simpl in Hone. rewrite filter_app in Hone. simpl in Hone.
      rewrite He, length_app in Hone. simpl in Hone. lia.
    + now rewrite IH.
Qed.

(* ================================================================= *)
(** ** The build step *)

(** The build command is issued at most once in any run. *)
Lemma build_at_most_once
  HOME_DIR ANACONDA_TOKEN (w : world)
  repo_name pkg_name version local dryrun channels :
  length (filter is_build
            (trace w (release HOME_DIR ANACONDA_TOKEN
                        repo_name pkg_name version local dryrun channels) []))
  <= 1.
Proof.
  apply (run_spec w _ (fun t _ => length (filter is_build t) <= 1)).
  unfold release. wp_run_all.
  all: cbn; lia.
Qed.

(** How the claims about the build step are shown: a property [R] of
    the events before the build command, the build event and the
    events after it is checked on each run at its one build event. *)
Lemma at_build
  HOME_DIR ANACONDA_TOKEN (w : world)
  repo_name pkg_name version local dryrun channels
  (R : list event -> event -> list event -> result unit -> Prop) :
  wp w (release HOME_DIR ANACONDA_TOKEN
          repo_name pkg_name version local dryrun channels) []
     (fun h r => match split_at is_build (rev h) with
                 | Some (pre, e, post) => R pre e post r
                 | None => True
                 end) ->
  forall pre e post,
    trace w (release HOME_DIR ANACONDA_TOKEN
               repo_name pkg_name version local dryrun channels) []
      = (pre ++ e :: post)%list ->
    is_build e = true ->
    R pre e post
      (final w (release HOME_DIR ANACONDA_TOKEN
                  repo_name pkg_name version local dryrun channels) []).
Proof.
  intros H pre e post Htrace He.
  apply (run_spec w _ (fun t r => match split_at is_build t with
                                  | Some (pre, e, post) => R pre e post r
                                  | None => True
                                  end)) in H.
  rewrite (split_at_unique is_build _ pre e post) in H; auto.
  apply build_at_most_once.
Qed.

(** C6.  Whenever the build command is issued, the events before it
    contain exactly three stamping operations, all completed: on
    [conda.recipe/meta.yaml] with pattern [version: .*], on [setup.py]
    with pattern [version = .*], and on [__init__.py] in the package
    directory with pattern [__version__ = .*], each with the requested
    version.  So the build never runs on an unstamped tree. *)
Theorem stamping_precedes_build
  HOME_DIR ANACONDA_TOKEN (w : world)
  repo_name pkg_name version local dryrun channels pre e post :
  trace w (release HOME_DIR ANACONDA_TOKEN
             repo_name pkg_name version local dryrun channels) []
    = (pre ++ e :: post)%list ->
  is_build e = true ->
  exists p v,
    pkg_name = PStr p /\ version = PStr v /\
    filter is_stamp pre = stamps p v.
Proof.
  apply (at_build HOME_DIR ANACONDA_TOKEN w
           repo_name pkg_name version local dryrun channels
           (fun pre _ _ _ => exists p v,
              pkg_name = PStr p /\ version = PStr v /\
              filter is_stamp pre = stamps p v)).
  unfold release. wp_run_all.
  all: cbn; trivial.
  all: subst; eexists _, _; repeat split.
Qed.

Lemma channel_args_app l1 l2 :
  channel_args (l1 ++ l2) = channel_args l1 ++ channel_args l2.
Proof.
  induction l1 as [|c l1 IH]; simpl; [reflexivity |].
  now rewrite IH, !append_assoc.
Qed.

Lemma channel_loop_spec items acc :
  fold_left (fun acc channel => acc ++ " --channel " ++ py_str channel)
            items acc
  = acc ++ channel_args (map py_str items).
Proof.
  revert acc; induction items as [|c items IH]; intros acc; simpl.
  - now rewrite append_nil_r.
  - now rewrite IH, !append_assoc.
Qed.

(** The loop over the channels followed by the two fixed channels
    renders the list: extra channels, then [defaults], then
    [pslmodels]. *)
Lemma channel_str_spec items :
  channel_str items
  = channel_args (map py_str items ++ ["defaults"; "pslmodels"]).
Proof.
  unfold channel_str. rewrite channel_loop_spec, channel_args_app.
  reflexivity.
Qed.

(** The build event of a run: its command is built from the iterated
    channels, and no other event of the run is a build. *)
Lemma build_event_command
  HOME_DIR ANACONDA_TOKEN (w : world)
  repo_name pkg_name version local dryrun channels pre e post :
  trace w (release HOME_DIR ANACONDA_TOKEN
             repo_name pkg_name version local dryrun channels) []
    = (pre ++ e :: post)%list ->
  is_build e = true ->
  exists items,
    py_iter (py_or channels (PList [])) = inr items /\
    fst e = Subprocess
              (build_cmd HOME_DIR ANACONDA_TOKEN (channel_str items)) /\
    filter is_build pre = [] /\ filter is_build post = [].
Proof.
  apply (at_build HOME_DIR ANACONDA_TOKEN w
           repo_name pkg_name version local dryrun channels
           (fun pre e post _ => exists items,
              py_iter (py_or channels (PList [])) = inr items /\
              fst e = Subprocess
                        (build_cmd HOME_DIR ANACONDA_TOKEN
                           (channel_str items)) /\
              filter is_build pre = [] /\ filter is_build post = [])).
  unfold release. wp_run_all.
  all: cbn; trivial.
  all: eexists; split; [eassumption |]; repeat split.
Qed.

(** The command that [release] builds, written out: the fixed
    arguments, then one flag for each iterated channel and for the two
    fixed ones. *)
Lemma build_cmd_spec HOME_DIR ANACONDA_TOKEN items :
  build_cmd HOME_DIR ANACONDA_TOKEN (channel_str items)
  = "conda build conda.recipe/ --token "
    ++ TOKEN HOME_DIR ANACONDA_TOKEN
    ++ " --user pslmodels --output-folder pkgbld_output"
    ++ " --override-channels "
    ++ channel_args (map py_str items ++ ["defaults"; "pslmodels"]).
Proof.
  unfold build_cmd. now rewrite channel_str_spec.
Qed.

(** [str()] of a string is the string. *)
Lemma str_of_strings items :
  Forall2 (fun item flag => forall s, item = PStr s -> flag = s)
          items (map py_str items).
Proof.
  induction items as [|item items IH]; constructor; [| exact IH].
  now intros s ->.
Qed.

Lemma str_of_names names : map py_str (map PStr names) = names.
Proof.
  induction names as [|n names IH]; [reflexivity |].
  cbn [map]. now rewrite IH.
Qed.

Lemma iterate_names names :
  py_iter (py_or (PList (map PStr names)) (PList []))
  = inr (map PStr names).
Proof. destruct names; reflexivity. Qed.

(** C7.  The build command is issued once.  For a list of channel
    names its command line carries, after the fixed arguments, one
    [--channel] flag for each of the caller's channels in the caller's
    order, then [--channel defaults], then [--channel pslmodels]; with
    no channels given it carries the last two only.  Whatever
    [channels] is, the flags of the build command end with those of
    [defaults] and [pslmodels]. *)
Theorem build_channel_list
  HOME_DIR ANACONDA_TOKEN (w : world)
  repo_name pkg_name version local dryrun channels pre e post :
  trace w (release HOME_DIR ANACONDA_TOKEN
             repo_name pkg_name version local dryrun channels) []
    = (pre ++ e :: post)%list ->
  is_build e = true ->
  (forall names,
     channels = PList (map PStr names) ->
     fst e = Subprocess
               ("conda build conda.recipe/ --token "
                ++ TOKEN HOME_DIR ANACONDA_TOKEN
                ++ " --user pslmodels --output-folder pkgbld_output"
                ++ " --override-channels "
                ++ channel_args (names ++ ["defaults"; "pslmodels"]))) /\
  (channels = PNone ->
   fst e = Subprocess
             ("conda build conda.recipe/ --token "
              ++ TOKEN HOME_DIR ANACONDA_TOKEN
              ++ " --user pslmodels --output-folder pkgbld_output"
              ++ " --override-channels "
              ++ " --channel defaults --channel pslmodels")) /\
  (exists flags,
     fst e = Subprocess
               ("conda build conda.recipe/ --token "
                ++ TOKEN HOME_DIR ANACONDA_TOKEN
                ++ " --user pslmodels --output-folder pkgbld_output"
                ++ " --override-channels "
                ++ channel_args (flags ++ ["defaults"; "pslmodels"]))) /\
  filter is_build pre = [] /\ filter is_build post = [].
Proof.
  intros Htrace He.
  destruct (build_event_command _ _ _ _ _ _ _ _ _ _ _ _ Htrace He)
    as (items & Hit & Hcmd & Hpre & Hpost).
  rewrite build_cmd_spec in Hcmd.
  split; [| split; [| split; [| split; assumption]]].
  - intros names ->. rewrite iterate_names in Hit. injection Hit as <-.
    rewrite str_of_names in Hcmd. exact Hcmd.
  - intros ->. simpl in Hit. injection Hit as <-. exact Hcmd.
  - now exists (map py_str items).
Qed.

(** *** Cleanup after the build *)

(** C2, as stated, fails: in a world where the build command exits
    with a nonzero status the build step is reached, the run ends
    there with the error of the build, and neither the cache purge
    nor the removal of the working directory is executed. *)
Lemma cleanup_skipped_when_build_fails :
  existsb is_build (trace failing_build_world failing_build_run []) = true
  /\ existsb is_purge (trace failing_build_world failing_build_run [])
     = false
  /\ existsb is_rmtree (trace failing_build_world failing_build_run [])
     = false
  /\ final failing_build_world failing_build_run []
     = Raised (CalledProcessError
                 (build_cmd "/home/u" None (channel_str [])) 1).
Proof. vm_compute. repeat split. Qed.

(** C2, amended.  If the build command exits with a nonzero status,
    the run ends right there with that error and no cleanup step is
    executed.  If the build command is issued and the run returns
    normally, the cache purge and then the removal of the working
    directory are executed after the build and complete. *)
Theorem cleanup_after_build
  HOME_DIR ANACONDA_TOKEN (w : world)
  repo_name pkg_name version local dryrun channels pre e post :
  trace w (release HOME_DIR ANACONDA_TOKEN
             repo_name pkg_name version local dryrun channels) []
    = (pre ++ e :: post)%list ->
  is_build e = true ->
  (snd e <> RStatus 0 ->
   post = [] /\
   exists cmd status,
     final w (release HOME_DIR ANACONDA_TOKEN
                repo_name pkg_name version local dryrun channels) []
     = Raised (CalledProcessError cmd status)) /\
  (final w (release HOME_DIR ANACONDA_TOKEN
              repo_name pkg_name version local dryrun channels) []
   = Returned tt ->
   exists mid now, post = (mid ++ cleanup HOME_DIR now)%list).
Proof.
  apply (at_build HOME_DIR ANACONDA_TOKEN w
           repo_name pkg_name version local dryrun channels
           (fun _ e post r =>
              (snd e <> RStatus 0 ->
               post = [] /\
               exists cmd status,
                 r = Raised (CalledProcessError cmd status)) /\
              (r = Returned tt ->
               exists mid now, post = (mid ++ cleanup HOME_DIR now)%list))).
  unfold release. wp_run_all.
  all: cbn; trivial.
  all: split; [intros Hne | intros Hr; try discriminate Hr].
  all: try (split; [reflexivity | eexists _, _; reflexivity]).
  all: try (exfalso;
            match goal with
            | H : ?st = 0%Z \/ false = true |- _ =>
                destruct H as [-> | H]; [now apply Hne | discriminate H]
            end).
  all: repeat match goal with
         | H : ?st = 0%Z \/ false = true |- _ =>
             destruct H as [-> | H]; [| discriminate H]
         end.
  all: match goal with
       | |- exists mid now, ?post = _ =>
           exists (firstn (length post - 5) post); eexists; reflexivity
       end.
Qed.

(** *** The local install *)

(** C8.  In local mode, after a build that succeeded, the run
    announces and issues the uninstall of the package; whatever the
    exit status of the uninstall, it goes on to announce and issue the
    install of the package pinned to the requested version; a nonzero
    exit status of the install ends the run with that error. *)
Theorem local_install_after_build
  HOME_DIR ANACONDA_TOKEN (w : world)
  repo_name pkg_name version dryrun channels pre e post :
  trace w (release HOME_DIR ANACONDA_TOKEN
             repo_name pkg_name version (PBool true) dryrun channels) []
    = (pre ++ e :: post)%list ->
  is_build e = true ->
  snd e = RStatus 0 ->
  exists r p v uninstall_status install_status rest,
    repo_name = PStr r /\ pkg_name = PStr p /\ version = PStr v /\
    post =
      (Print ": Package-Builder is uninstalling any existing package", RUnit)
      :: (Subprocess (uninstall_cmd p), RStatus uninstall_status)
      :: (Print ": Package-Builder is installing package on local computer",
          RUnit)
      :: (Subprocess (install_cmd HOME_DIR r p v), RStatus install_status)
      :: rest /\
    (install_status <> 0%Z ->
     rest = [] /\
     final w (release HOME_DIR ANACONDA_TOKEN
                repo_name pkg_name version (PBool true) dryrun channels) []
     = Raised (CalledProcessError (install_cmd HOME_DIR r p v)
                                  install_status)) /\
    (install_status = 0%Z -> rest <> []).
Proof.
  intros Htrace He.
  refine (at_build HOME_DIR ANACONDA_TOKEN w
            repo_name pkg_name version (PBool true) dryrun channels
            (fun _ e post res =>
               snd e = RStatus 0 ->
               exists r p v uninstall_status install_status rest,
                 repo_name = PStr r /\ pkg_name = PStr p /\
                 version = PStr v /\
                 post =
                   (Print
                      ": Package-Builder is uninstalling any existing package",
                    RUnit)
                   :: (Subprocess (uninstall_cmd p),
                       RStatus uninstall_status)
                   :: (Print
                         ": Package-Builder is installing package on local computer",
                       RUnit)
                   :: (Subprocess (install_cmd HOME_DIR r p v),
                       RStatus install_status)
                   :: rest /\
                 (install_status <> 0%Z ->
                  rest = [] /\
                  res = Raised (CalledProcessError
                                  (install_cmd HOME_DIR r p v)
                                  install_status)) /\
                 (install_status = 0%Z -> rest <> []))
            _ pre e post Htrace He).
  clear Htrace He pre e post.
  unfold release. wp_run_all.
  all: cbn; trivial.
  all: intros Hbuilt.
  all: try (exfalso; injection Hbuilt as Hbuilt; contradiction).
  all: subst.
  all: eexists _, _, _, _, _, _.
  all: split; [reflexivity |]; split; [reflexivity |];
       split; [reflexivity |]; split; [reflexivity |].
  all: split; [intros Hin | intros Hin].
  all: try (split; reflexivity).
  all: try discriminate.
  all: try (exfalso;
            match goal with
            | H : ?st = 0%Z \/ false = true |- _ =>
                destruct H as [-> | H]; [now apply Hin | discriminate H]
            end).
  all: try contradiction.
Qed.

(** *** Paths *)

Lemma absolute_inv s : startswith s sep = true -> exists s', s = String "/" s'.
Proof.
  unfold sep. destruct s as [|c s]; cbn [startswith]; [discriminate |].
  intros H. apply andb_true_iff in H as [H _].
  apply Ascii.eqb_eq in H as <-. now exists s.
Qed.

Lemma join_step_absolute path b :
  startswith b sep = true -> join_step path b = b.
Proof. intros H. unfold join_step. now rewrite H. Qed.

Lemma join_step_keeps_root path b :
  startswith path sep = true -> startswith (join_step path b) sep = true.
Proof.
  intros Hp. unfold join_step. destruct (startswith b sep) eqn:Hb; trivial.
  apply absolute_inv in Hp as [s' ->].
  destruct (_ || _); reflexivity.
Qed.

Lemma os_path_join_keeps_root a p :
  startswith a sep = true -> startswith (os_path_join a p) sep = true.
Proof.
  unfold os_path_join. revert a; induction p as [|b p IH]; intros a Ha; simpl.
  - exact Ha.
  - apply IH. now apply join_step_keeps_root.
Qed.

Lemma append_nonempty_r a b : b <> "" -> a ++ b <> "".
Proof. destruct a; simpl; [trivial | discriminate]. Qed.

Lemma endswith_sep_cons c s :
  s <> "" -> endswith (String c s) sep = endswith s sep.
Proof.
  destruct s as [|d s]; [contradiction |]. intros _.
  unfold endswith. simpl String.length. simpl Nat.leb.
  change (S (S (String.length s)) - 1) with (S (String.length s)).
  change (S (String.length s) - 1) with (String.length s - 0).
  rewrite Nat.sub_0_r. reflexivity.
Qed.

Lemma endswith_sep_app a b :
  b <> "" -> endswith (a ++ b) sep = endswith b sep.
Proof.
  intros Hb. induction a as [|c a IH]; simpl; [reflexivity |].
  rewrite endswith_sep_cons; [exact IH | now apply append_nonempty_r].
Qed.

(** Joining a relative component to a path that does not end in a
    separator. *)
Lemma join_step_plain path b :
  path <> "" -> endswith path sep = false -> startswith b sep = false ->
  join_step path b = path ++ "/" ++ b.
Proof.
  intros Hne He Hb. unfold join_step. rewrite Hb, He.
  destruct (String.eqb_spec path ""); [contradiction | reflexivity].
Qed.

Lemma WORKING_DIR_absolute HOME_DIR :
  startswith HOME_DIR sep = true ->
  startswith (WORKING_DIR HOME_DIR) sep = true.
Proof. apply os_path_join_keeps_root. Qed.

Lemma WORKING_DIR_plain HOME_DIR :
  WORKING_DIR HOME_DIR <> "" /\ endswith (WORKING_DIR HOME_DIR) sep = false.
Proof.
  unfold WORKING_DIR, os_path_join. simpl fold_left. unfold join_step.
  change (startswith "temporary_pkgbld_working_dir" sep) with false.
  cbv iota. destruct (_ || _).
  - split; [now apply append_nonempty_r |].
    now rewrite endswith_sep_app.
  - split; [now apply append_nonempty_r |].
    now rewrite endswith_sep_app.
Qed.

(** [os.path.join] drops everything before an absolute component: with
    an absolute home directory, nothing of ['file://'] is left. *)
Lemma file_url_dropped HOME_DIR repo_name :
  startswith HOME_DIR sep = true ->
  os_path_join "file://" [WORKING_DIR HOME_DIR; repo_name; "pkgbld_output"]
  = os_path_join (WORKING_DIR HOME_DIR) [repo_name; "pkgbld_output"].
Proof.
  intros H. unfold os_path_join. simpl fold_left.
  rewrite (join_step_absolute "file://"); [reflexivity |].
  now apply WORKING_DIR_absolute.
Qed.

Lemma pkg_dir_plain HOME_DIR r :
  r <> "" -> startswith r sep = false -> endswith r sep = false ->
  os_path_join (WORKING_DIR HOME_DIR) [r; "pkgbld_output"]
  = WORKING_DIR HOME_DIR ++ "/" ++ r ++ "/pkgbld_output".
Proof.
  intros Hne Hs He. destruct (WORKING_DIR_plain HOME_DIR) as [Wne We].
  unfold os_path_join. simpl fold_left.
  rewrite (join_step_plain (WORKING_DIR HOME_DIR) r) by assumption.
  rewrite join_step_plain.
  - now rewrite !append_assoc.
  - now apply append_nonempty_r.
  - rewrite endswith_sep_app by discriminate.
    change ("/" ++ r) with (String "/" r).
    now rewrite endswith_sep_cons.
  - reflexivity.
Qed.

(** A property of each event of a kind, checked on every run. *)
Lemma run_each {A} (w : world) (m : prog A) (f : event -> bool)
  (R : result A -> event -> Prop) :
  wp w m [] (fun h r => Forall (R r) (filter f (rev h))) ->
  forall e, In e (trace w m []) -> f e = true -> R (final w m []) e.
Proof.
  intros H e Hin He.
  apply (run_spec w m (fun t r => Forall (R r) (filter f t))) in H.
  rewrite Forall_forall in H. apply H, filter_In. now split.
Qed.

(** The install command is issued only in local mode and with the
    package directory computed by [os.path.join]. *)
Lemma install_event_command
  HOME_DIR ANACONDA_TOKEN (w : world)
  repo_name pkg_name version local dryrun channels e :
  In e (trace w (release HOME_DIR ANACONDA_TOKEN
                   repo_name pkg_name version local dryrun channels) []) ->
  is_install e = true ->
  exists r p v,
    repo_name = PStr r /\ pkg_name = PStr p /\ version = PStr v /\
    local = PBool true /\
    fst e = Subprocess (install_cmd HOME_DIR r p v).
Proof.
  apply (run_each w _ is_install
           (fun _ e => exists r p v,
              repo_name = PStr r /\ pkg_name = PStr p /\ version = PStr v /\
              local = PBool true /\
              fst e = Subprocess (install_cmd HOME_DIR r p v))).
  unfold release. wp_run_all.
  all: cbn; repeat constructor.
  all: subst; eexists _, _, _; repeat split.
Qed.

(** C9.  With an absolute home directory, the channel of the install
    command is the join of the working directory, the repository name
    and [pkgbld_output]: an absolute path with no [file://] in front.
    For a repository name that is a plain path component it is
    [<WORKING_DIR>/<repo_name>/pkgbld_output]. *)
Theorem install_channel_is_bare_path
  HOME_DIR ANACONDA_TOKEN (w : world)
  repo_name pkg_name version local dryrun channels e :
  In e (trace w (release HOME_DIR ANACONDA_TOKEN
                   repo_name pkg_name version local dryrun channels) []) ->
  is_install e = true ->
  startswith HOME_DIR sep = true ->
  exists r p v channel,
    repo_name = PStr r /\ pkg_name = PStr p /\ version = PStr v /\
    local = PBool true /\
    channel = os_path_join (WORKING_DIR HOME_DIR) [r; "pkgbld_output"] /\
    fst e = Subprocess ("conda install --channel " ++ channel ++ " "
                        ++ p ++ "=" ++ v ++ " --yes") /\
    startswith channel "/" = true /\
    startswith channel "file://" = false /\
    (r <> "" -> startswith r sep = false -> endswith r sep = false ->
     channel = WORKING_DIR HOME_DIR ++ "/" ++ r ++ "/pkgbld_output").
Proof.
  intros Hin He Habs.
  destruct (install_event_command _ _ _ _ _ _ _ _ _ _ Hin He)
    as (r & p & v & Hr & Hp & Hv & Hl & Hcmd).
  exists r, p, v, (os_path_join (WORKING_DIR HOME_DIR) [r; "pkgbld_output"]).
  assert (Hroot : startswith (os_path_join (WORKING_DIR HOME_DIR)
                                [r; "pkgbld_output"]) sep = true)
    by now apply os_path_join_keeps_root, WORKING_DIR_absolute.
  repeat split; trivial.
  - rewrite Hcmd. unfold install_cmd. now rewrite file_url_dropped.
  - apply absolute_inv in Hroot as [s' ->]. reflexivity.
  - apply pkg_dir_plain.
Qed.

(** *** The parameter check *)

(** Runs the parameter check: stops at the first line of the plan. *)
Ltac wp_validation :=
  repeat (lazymatch goal with
          | |- wp _ (bind (print _) _) _ _ => fail
          | _ => wp_step
          end);
  cbn [rev app].

(** Turns the outcomes of the tests made by the check into equations
    on the tested conditions. *)
Ltac tests :=
  repeat match goal with
    | H : negb _ = true |- _ => apply negb_true_iff in H
    | H : negb _ = false |- _ => apply negb_false_iff in H
    end.

(** C5.  A request that violates one of the conditions of the
    parameter check makes [release] raise a [ValueError] whose message
    is the one for a condition that is violated, and all that has
    happened by then is reading the current directory and testing for
    the package directory: nothing is created, removed, written or
    run. *)
Theorem invalid_parameters_rejected
  HOME_DIR ANACONDA_TOKEN (w : world)
  repo_name pkg_name version local dryrun channels :
  parameters_valid w repo_name pkg_name version local dryrun = false ->
  exists msg,
    final w (release HOME_DIR ANACONDA_TOKEN
               repo_name pkg_name version local dryrun channels) []
    = Raised (ValueError msg) /\
    rejects w repo_name pkg_name version local dryrun msg /\
    forallb is_query
      (trace w (release HOME_DIR ANACONDA_TOKEN
                  repo_name pkg_name version local dryrun channels) [])
    = true.
Proof.
  intros Hinv.
  apply (run_spec w _ (fun t r => exists msg,
           r = Raised (ValueError msg) /\
           rejects w repo_name pkg_name version local dryrun msg /\
           forallb is_query t = true)).
  unfold release. wp_validation.
  all: tests; subst.
  all: try (eexists; split; [reflexivity |]; split; [| reflexivity]).
  all: try (solve [ apply reject_repo_name; assumption
                  | apply reject_pkg_name; assumption
                  | apply reject_version_type; assumption
                  | apply reject_local; assumption
                  | apply reject_dryrun; assumption
                  | eapply reject_cwd; [reflexivity | reflexivity | assumption]
                  | eapply reject_subdir;
                    [reflexivity | reflexivity | assumption]
                  | eapply reject_version_shape;
                    [reflexivity | assumption] ]).
  all: exfalso; unfold parameters_valid, local_layout_ok in Hinv;
       cbv zeta in Hinv.
  all: repeat match goal with
         | H : _ = true |- _ => rewrite H in Hinv
         end.
  all: discriminate Hinv.
Qed.

(** *** Local mode *)

(** C3, as stated, fails: in local mode, from a directory whose final
    path segment is [My-Tax-Calculator], a request for repository
    [Tax-Calculator] passes the check and the run returns normally. *)
Lemma local_check_accepts_suffix :
  final_segment (suffix_world [] Getcwd) = "My-Tax-Calculator"
  /\ final_segment (suffix_world [] Getcwd) <> "Tax-Calculator"
  /\ final suffix_world suffix_run [] = Returned tt.
Proof. vm_compute. repeat split. discriminate. Qed.

(** C3, amended.  In local mode, with string names and version,
    [release] raises a [ValueError] unless the current directory, as a
    string, ends with the repository name and [./<pkg_name>] is a
    directory.  The message names the current directory and the
    repository name when the first test fails, and the current
    directory and the package name when the second does; only the two
    tests have happened by then. *)
Theorem local_layout_checked
  HOME_DIR ANACONDA_TOKEN (w : world) r p v dryrun channels :
  local_layout_ok w r p = false ->
  final w (release HOME_DIR ANACONDA_TOKEN
             (PStr r) (PStr p) (PStr v) (PBool true) dryrun channels) []
  = Raised (ValueError
      (if endswith (w [] Getcwd) r
       then "ERROR: cwd=" ++ w [] Getcwd
            ++ " does not contain subdirectory " ++ p ++ " "
       else "ERROR: cwd=" ++ w [] Getcwd
            ++ " does not correspond to REPOSITORY_NAME=" ++ r
            ++ String newline "")) /\
  trace w (release HOME_DIR ANACONDA_TOKEN
             (PStr r) (PStr p) (PStr v) (PBool true) dryrun channels) []
  = (Getcwd, RStr (w [] Getcwd))
    :: (if endswith (w [] Getcwd) r
        then [(Isdir (os_path_join "." [p]), RBool false)]
        else []).
Proof.
  intros Hlayout.
  apply (run_spec w _ (fun t res =>
           res = Raised (ValueError
             (if endswith (w [] Getcwd) r
              then "ERROR: cwd=" ++ w [] Getcwd
                   ++ " does not contain subdirectory " ++ p ++ " "
              else "ERROR: cwd=" ++ w [] Getcwd
                   ++ " does not correspond to REPOSITORY_NAME=" ++ r
                   ++ String newline "")) /\
           t = (Getcwd, RStr (w [] Getcwd))
               :: (if endswith (w [] Getcwd) r
                   then [(Isdir (os_path_join "." [p]), RBool false)]
                   else []))).
  unfold release. wp_validation.
  all: tests.
  all: unfold local_layout_ok in Hlayout; cbv zeta in Hlayout.
  all: repeat match goal with
         | H : endswith _ _ = _ |- _ => rewrite H in *; clear H
         end.
  all: repeat match goal with
         | H : _ _ (Isdir _) = _ |- _ => rewrite H in *; clear H
         end.
  all: try discriminate Hlayout.
  all: split; reflexivity.
Qed.

(** *** The plan and the dry run *)

(** A dry run with valid parameters prints the plan and the notice
    that it quits, and returns; its only other calls are the two
    queries of the parameter check. *)
Lemma dryrun_prints_plan
  HOME_DIR ANACONDA_TOKEN (w : world) r p v l channels :
  parameters_valid w (PStr r) (PStr p) (PStr v) (PBool l) (PBool true)
  = true ->
  final w (release HOME_DIR ANACONDA_TOKEN
             (PStr r) (PStr p) (PStr v) (PBool l) (PBool true) channels) []
  = Returned tt /\
  filter is_print
    (trace w (release HOME_DIR ANACONDA_TOKEN
                (PStr r) (PStr p) (PStr v) (PBool l) (PBool true) channels) [])
  = map printed (plan HOME_DIR r p v l channels
                 ++ [": Package-Builder is quitting"])%list /\
  forallb (fun e => is_query e || is_print e)
    (trace w (release HOME_DIR ANACONDA_TOKEN
                (PStr r) (PStr p) (PStr v) (PBool l) (PBool true) channels) [])
  = true.
Proof.
  intros Hvalid.
  apply (run_spec w _ (fun t res =>
           res = Returned tt /\
           filter is_print t
           = map printed (plan HOME_DIR r p v l channels
                          ++ [": Package-Builder is quitting"])%list /\
           forallb (fun e => is_query e || is_print e) t = true)).
  unfold release. wp_run_all.
  all: tests.
  all: unfold parameters_valid, local_layout_ok in Hvalid;
       cbv zeta in Hvalid.
  all: repeat match goal with
         | H : _ = false |- _ => rewrite H in Hvalid
         end.
  all: rewrite ?andb_false_r in Hvalid; try discriminate Hvalid.
  all: repeat split.
Qed.

(** A run that returns normally and is not a dry run has gone through
    the whole procedure, down to the cleanup. *)
Lemma normal_return_is_complete
  HOME_DIR ANACONDA_TOKEN (w : world)
  repo_name pkg_name version local dryrun channels :
  final w (release HOME_DIR ANACONDA_TOKEN
             repo_name pkg_name version local dryrun channels) []
  = Returned tt ->
  dryrun <> PBool true ->
  exists t now,
    trace w (release HOME_DIR ANACONDA_TOKEN
               repo_name pkg_name version local dryrun channels) []
    = (t ++ cleanup HOME_DIR now)%list.
Proof.
  apply (run_spec w _ (fun t res =>
           res = Returned tt -> dryrun <> PBool true ->
           exists t0 now, t = (t0 ++ cleanup HOME_DIR now)%list)).
  unfold release. wp_run_all.
  all: intros Hret Hdry; try discriminate Hret.
  all: try (subst; now elim Hdry).
  all: repeat match goal with
         | H : ?st = 0%Z \/ false = true |- _ =>
             destruct H as [-> | H]; [| discriminate H]
         end.
  all: match goal with
       | |- exists t0 now, ?t = _ =>
           exists (firstn (length t - 5) t); eexists; reflexivity
       end.
Qed.

(** C4.  With valid parameters and [dryrun] true, [release] prints the
    execution plan and the notice that it quits, then returns; apart
    from the two queries of the parameter check it makes no call at
    all.  And a run that returns normally without being a dry run has
    executed the procedure to its end. *)
Theorem dryrun_is_the_only_early_exit
  HOME_DIR ANACONDA_TOKEN (w : world) r p v l channels :
  (parameters_valid w (PStr r) (PStr p) (PStr v) (PBool l) (PBool true)
   = true ->
   final w (release HOME_DIR ANACONDA_TOKEN
              (PStr r) (PStr p) (PStr v) (PBool l) (PBool true) channels) []
   = Returned tt /\
   filter is_print
     (trace w (release HOME_DIR ANACONDA_TOKEN
                 (PStr r) (PStr p) (PStr v) (PBool l) (PBool true)
                 channels) [])
   = map printed (plan HOME_DIR r p v l channels
                  ++ [": Package-Builder is quitting"])%list /\
   forallb (fun e => is_query e || is_print e)
     (trace w (release HOME_DIR ANACONDA_TOKEN
                 (PStr r) (PStr p) (PStr v) (PBool l) (PBool true)
                 channels) [])
   = true) /\
  (forall repo_name pkg_name version local dryrun,
     final w (release HOME_DIR ANACONDA_TOKEN
                repo_name pkg_name version local dryrun channels) []
     = Returned tt ->
     dryrun <> PBool true ->
     exists t now,
       trace w (release HOME_DIR ANACONDA_TOKEN
                  repo_name pkg_name version local dryrun channels) []
       = (t ++ cleanup HOME_DIR now)%list).
Proof.
  split.
  - apply dryrun_prints_plan.
  - intros. now apply normal_return_is_complete.
Qed.

(** *** The channels argument *)

Lemma wp_always {A} (w : world) (m : prog A) h
  (Q : list event -> result A -> Prop) :
  (forall ext r, Q (ext ++ h)%list r) -> wp w m h Q.
Proof. intros H. apply wp_run, H. Qed.

Lemma parameters_valid_inv (w : world)
  repo_name pkg_name version local dryrun :
  parameters_valid w repo_name pkg_name version local dryrun = true ->
  exists r p v l d,
    repo_name = PStr r /\ pkg_name = PStr p /\ version = PStr v /\
    local = PBool l /\ dryrun = PBool d /\
    (if l then local_layout_ok w r p else true) = true /\
    re_match pattern v = true.
Proof.
  unfold parameters_valid.
  destruct repo_name as [| | |r| |]; try discriminate.
  destruct pkg_name as [| | |p| |]; try discriminate.
  destruct version as [| | |v| |]; try discriminate.
  destruct local as [|l| | | |]; try discriminate.
  destruct dryrun as [|d| | | |]; try discriminate.
  intros H. apply andb_true_iff in H as [Hl Hv].
  now exists r, p, v, l, d.
Qed.

(** With the other parameters valid, the check lets the request
    through whatever [channels] is: the first line of the plan is
    printed. *)
Lemma channels_not_checked
  HOME_DIR ANACONDA_TOKEN (w : world)
  repo_name pkg_name version local dryrun channels :
  parameters_valid w repo_name pkg_name version local dryrun = true ->
  In (printed ": Package-Builder will build model packages for:")
     (trace w (release HOME_DIR ANACONDA_TOKEN
                 repo_name pkg_name version local dryrun channels) []).
Proof.
  intros Hvalid.
  apply parameters_valid_inv in Hvalid
    as (r & p & v & l & d & -> & -> & -> & -> & -> & Hlayout & Hshape).
  apply (run_spec w _ (fun t _ =>
           In (printed ": Package-Builder will build model packages for:")
              t)).
  unfold release. wp_validation.
  all: tests.
  all: unfold local_layout_ok in Hlayout; cbv zeta in Hlayout.
  all: try congruence.
  all: repeat match goal with
         | H : _ = false |- _ => rewrite H in Hlayout
         end.
  all: rewrite ?andb_false_r in Hlayout; try discriminate Hlayout.
  all: wp_step; apply wp_always; intros ext res.
  all: rewrite rev_app_distr; cbn [rev app In].
  all: repeat (first [left; reflexivity | right]).
Qed.

Lemma iterate_string s :
  py_iter (py_or (PStr s) (PList [])) = inr (chars s).
Proof. destruct s; reflexivity. Qed.

Lemma str_of_chars s : map py_str (chars s) = code_points s.
Proof. unfold chars. apply str_of_names. Qed.

Lemma code_points_nil s : code_points s = [] -> s = "".
Proof.
  destruct s as [|c s]; [reflexivity |]. simpl.
  destruct (code_points s); [discriminate |].
  destruct (starts_with_continuation s); discriminate.
Qed.

(** The characters of a string, put together again, are the string. *)
Lemma code_points_concat s : String.concat "" (code_points s) = s.
Proof.
  induction s as [|c s IH]; [reflexivity |]. simpl code_points.
  destruct (code_points s) as [|g gs] eqn:Hcp.
  - apply code_points_nil in Hcp. now subst.
  - destruct (starts_with_continuation s).
    + rewrite <- IH. destruct gs; reflexivity.
    + rewrite <- IH. reflexivity.
Qed.

(** The first group starts with the first byte of the string and goes
    on with continuation bytes; every later group is one character. *)
Lemma code_points_shape s :
  match code_points s with
  | [] => s = ""
  | g :: gs =>
      (exists b k rest,
         s = String b rest /\ g = String b k /\
         all_chars is_continuation k = true) /\
      Forall one_character gs
  end.
Proof.
  induction s as [|c s IH]; [reflexivity |]. simpl code_points.
  destruct (code_points s) as [|g gs] eqn:Hcp.
  - split; [| constructor]. now exists c, "", s.
  - destruct IH as [(b & k & rest & -> & -> & Hk) Hgs].
    cbn [starts_with_continuation].
    destruct (is_continuation b) eqn:Hb.
    + split; [| exact Hgs].
      exists c, (String b k), (String b rest). repeat split.
      cbn [all_chars]. now rewrite Hb, Hk.
    + split; [now exists c, "", (String b rest) |].
      constructor; [| exact Hgs]. now exists b, k.
Qed.

Lemma code_points_characters s :
  starts_with_continuation s = false -> Forall one_character (code_points s).
Proof.
  intros Hs. pose proof (code_points_shape s) as H.
  destruct (code_points s) as [|g gs]; [constructor |].
  destruct H as [(b & k & rest & -> & -> & Hk) Hgs].
  constructor; [| exact Hgs]. now exists b, k.
Qed.

Lemma ascii_not_continuation b :
  (nat_of_ascii b <? 128)%nat = true -> is_continuation b = false.
Proof.
  intros H. apply Nat.ltb_lt in H. unfold is_continuation.
  destruct (Nat.leb_spec 128 (nat_of_ascii b)); [lia | reflexivity].
Qed.

(** In an ASCII string every byte is a character. *)
Lemma code_points_ascii s :
  is_ascii s = true ->
  code_points s = map (fun c => String c "") (list_ascii_of_string s).
Proof.
  unfold is_ascii. induction s as [|c s IH]; [reflexivity |].
  cbn [all_chars]. intros H. apply andb_true_iff in H as [_ Hs].
  simpl code_points. rewrite (IH Hs).
  destruct s as [|d s]; [reflexivity |].
  cbn [list_ascii_of_string map starts_with_continuation].
  cbn [all_chars] in Hs. apply andb_true_iff in Hs as [Hd _].
  now rewrite (ascii_not_continuation d Hd).
Qed.

(** C10.  The parameter check does not look at [channels]: with the
    other parameters valid the request passes it whatever [channels]
    is.  The command line of the build has, after the fixed
    arguments, one [--channel] flag for each element that iterating
    [channels] yields, in that order, before the two fixed channels;
    the flag of an element that is a string is that string.  For a
    string passed as [channels] the flags are its characters one by
    one: put together they are the string, and each is a single
    character. *)
Theorem channels_unchecked
  HOME_DIR ANACONDA_TOKEN (w : world)
  repo_name pkg_name version local dryrun channels :
  (parameters_valid w repo_name pkg_name version local dryrun = true ->
   In (printed ": Package-Builder will build model packages for:")
      (trace w (release HOME_DIR ANACONDA_TOKEN
                  repo_name pkg_name version local dryrun channels) [])) /\
  (forall pre e post,
     trace w (release HOME_DIR ANACONDA_TOKEN
                repo_name pkg_name version local dryrun channels) []
     = (pre ++ e :: post)%list ->
     is_build e = true ->
     exists items flags,
       py_iter (py_or channels (PList [])) = inr items /\
       length flags = length items /\
       Forall2 (fun item flag => forall s, item = PStr s -> flag = s)
               items flags /\
       fst e = Subprocess
                 ("conda build conda.recipe/ --token "
                  ++ TOKEN HOME_DIR ANACONDA_TOKEN
                  ++ " --user pslmodels --output-folder pkgbld_output"
                  ++ " --override-channels "
                  ++ channel_args (flags ++ ["defaults"; "pslmodels"])) /\
       (forall s, channels = PStr s ->
          String.concat "" flags = s /\
          (starts_with_continuation s = false ->
           Forall one_character flags) /\
          (is_ascii s = true ->
           flags = map (fun c => String c "") (list_ascii_of_string s)))).
Proof.
  split.
  - apply channels_not_checked.
  - intros pre e post Htrace He.
    destruct (build_event_command _ _ _ _ _ _ _ _ _ _ _ _ Htrace He)
      as (items & Hit & Hcmd & _).
    rewrite build_cmd_spec in Hcmd.
    exists items, (map py_str items).
    split; [exact Hit |]. split; [apply length_map |].
    split; [apply str_of_strings |]. split; [exact Hcmd |].
    intros s ->. rewrite iterate_string in Hit. injection Hit as <-.
    rewrite str_of_chars. split; [apply code_points_concat |].
    split; [apply code_points_characters | apply code_points_ascii].
Qed.

(** *** The version pattern *)

(** C1.  The check accepts a version that is not of the X.Y.Z shape:
    [re.match] with a pattern that ends in [$] accepts ["1.0.1\n"].
    For that version [release] raises no [ValueError]: a dry run
    returns normally in every world, and a real run goes on to clone
    with the newline inside the command. *)
Theorem trailing_newline_accepted :
  ~ X_Y_Z version_with_newline /\
  re_match pattern version_with_newline = true /\
  (forall HOME_DIR ANACONDA_TOKEN (w : world),
     final w (release HOME_DIR ANACONDA_TOKEN
                (PStr "Tax-Calculator") (PStr "taxcalc")
                (PStr version_with_newline)
                (PBool false) (PBool true) PNone) []
     = Returned tt) /\
  In (Subprocess
        ("git clone --branch " ++ version_with_newline
         ++ " --depth 1 https://github.com/PSLmodels/Tax-Calculator/"),
      RStatus 0)
     (trace quiet_world
        (release "/home/u" None
           (PStr "Tax-Calculator") (PStr "taxcalc")
           (PStr version_with_newline)
           (PBool false) (PBool false) PNone) []).
Proof.
  split; [| split; [| split]].
  - intros H. apply X_Y_Z_chars in H. discriminate H.
  - reflexivity.
  - intros HOME_DIR ANACONDA_TOKEN w. reflexivity.
  - vm_compute. do 14 right. left. reflexivity.
Qed.

(* ================================================================= *)
(** ** The claims at concrete requests *)

(** C6 on a local build: the three stamps precede the build. *)
Lemma stamping_precedes_build_witness :
  exists p v,
    PStr "taxcalc" = PStr p /\ PStr "1.0.1" = PStr v /\
    filter is_stamp (firstn 21 (trace quiet_world local_run []))
    = stamps p v.
Proof.
  apply (stamping_precedes_build "/home/u" None quiet_world
           (PStr "Tax-Calculator") (PStr "taxcalc") (PStr "1.0.1")
           (PBool true) (PBool false) (PList [PStr "conda-forge"])
           (firstn 21 (trace quiet_world local_run []))
           (nth 21 (trace quiet_world local_run []) nowhere)
           (skipn 22 (trace quiet_world local_run []))).
  - vm_compute. reflexivity.
  - vm_compute. reflexivity.
Defined.

(** C7 on a local build with the extra channel [conda-forge]. *)
Lemma build_channel_list_witness :
  fst (nth 21 (trace quiet_world local_run []) nowhere)
  = Subprocess
      ("conda build conda.recipe/ --token /home/u/.pslmodels_anaconda_token"
       ++ " --user pslmodels --output-folder pkgbld_output"
       ++ " --override-channels "
       ++ " --channel conda-forge --channel defaults --channel pslmodels").
Proof.
  refine (proj1 (build_channel_list "/home/u" None quiet_world
                   (PStr "Tax-Calculator") (PStr "taxcalc") (PStr "1.0.1")
                   (PBool true) (PBool false) (PList [PStr "conda-forge"])
                   (firstn 21 (trace quiet_world local_run []))
                   (nth 21 (trace quiet_world local_run []) nowhere)
                   (skipn 22 (trace quiet_world local_run []))
                   _ _)
            ["conda-forge"] eq_refl).
  - vm_compute. reflexivity.
  - vm_compute. reflexivity.
Defined.

(** C2, amended, on a local build in which every command succeeds. *)
Lemma cleanup_after_build_witness :
  exists mid now,
    skipn 22 (trace quiet_world local_run [])
    = (mid ++ cleanup "/home/u" now)%list.
Proof.
  apply (cleanup_after_build "/home/u" None quiet_world
           (PStr "Tax-Calculator") (PStr "taxcalc") (PStr "1.0.1")
           (PBool true) (PBool false) (PList [PStr "conda-forge"])
           (firstn 21 (trace quiet_world local_run []))
           (nth 21 (trace quiet_world local_run []) nowhere)
           (skipn 22 (trace quiet_world local_run []))).
  - vm_compute. reflexivity.
  - vm_compute. reflexivity.
  - vm_compute. reflexivity.
Defined.

(** C8 on a machine where the package was not installed: the
    uninstall fails and the install is issued all the same. *)
Lemma local_install_after_build_witness :
  exists r p v uninstall_status install_status rest,
    PStr "Tax-Calculator" = PStr r /\ PStr "taxcalc" = PStr p /\
    PStr "1.0.1" = PStr v /\
    skipn 22 (trace fresh_machine local_run []) =
      (Print ": Package-Builder is uninstalling any existing package", RUnit)
      :: (Subprocess (uninstall_cmd p), RStatus uninstall_status)
      :: (Print ": Package-Builder is installing package on local computer",
          RUnit)
      :: (Subprocess (install_cmd "/home/u" r p v), RStatus install_status)
      :: rest /\
    (install_status <> 0%Z ->
     rest = [] /\
     final fresh_machine local_run []
     = Raised (CalledProcessError (install_cmd "/home/u" r p v)
                                  install_status)) /\
    (install_status = 0%Z -> rest <> []).
Proof.
  apply (local_install_after_build "/home/u" None fresh_machine
           (PStr "Tax-Calculator") (PStr "taxcalc") (PStr "1.0.1")
           (PBool false) (PList [PStr "conda-forge"])
           (firstn 21 (trace fresh_machine local_run []))
           (nth 21 (trace fresh_machine local_run []) nowhere)
           (skipn 22 (trace fresh_machine local_run []))).
  - vm_compute. reflexivity.
  - vm_compute. reflexivity.
  - vm_compute. reflexivity.
Defined.

(** C9 with home directory [/home/u]. *)
Lemma install_channel_is_bare_path_witness :
  exists r p v channel,
    PStr "Tax-Calculator" = PStr r /\ PStr "taxcalc" = PStr p /\
    PStr "1.0.1" = PStr v /\ PBool true = PBool true /\
    channel = os_path_join (WORKING_DIR "/home/u") [r; "pkgbld_output"] /\
    fst (nth 25 (trace quiet_world local_run []) nowhere)
    = Subprocess ("conda install --channel " ++ channel ++ " "
                  ++ p ++ "=" ++ v ++ " --yes") /\
    startswith channel "/" = true /\
    startswith channel "file://" = false /\
    (r <> "" -> startswith r sep = false -> endswith r sep = false ->
     channel = WORKING_DIR "/home/u" ++ "/" ++ r ++ "/pkgbld_output").
Proof.
  apply (install_channel_is_bare_path "/home/u" None quiet_world
           (PStr "Tax-Calculator") (PStr "taxcalc") (PStr "1.0.1")
           (PBool true) (PBool false) (PList [PStr "conda-forge"])
           (nth 25 (trace quiet_world local_run []) nowhere)).
  - vm_compute. do 25 right. left. reflexivity.
  - vm_compute. reflexivity.
  - vm_compute. reflexivity.
Defined.

(** C5 on version [1.0]. *)
Lemma invalid_parameters_rejected_witness :
  exists msg,
    final quiet_world
      (release "/home/u" None (PStr "Tax-Calculator") (PStr "taxcalc")
               (PStr "1.0") (PBool false) (PBool false) PNone) []
    = Raised (ValueError msg) /\
    rejects quiet_world (PStr "Tax-Calculator") (PStr "taxcalc")
            (PStr "1.0") (PBool false) (PBool false) msg /\
    forallb is_query
      (trace quiet_world
         (release "/home/u" None (PStr "Tax-Calculator") (PStr "taxcalc")
                  (PStr "1.0") (PBool false) (PBool false) PNone) [])
    = true.
Proof.
  apply (invalid_parameters_rejected "/home/u" None quiet_world).
  vm_compute. reflexivity.
Defined.

(** C3, amended, in the repository directory without the package
    directory. *)
Lemma local_layout_checked_witness :
  final no_package_dir
    (release "/home/u" None (PStr "Tax-Calculator") (PStr "taxcalc")
             (PStr "1.0.1") (PBool true) (PBool false) PNone) []
  = Raised (ValueError
      "ERROR: cwd=/home/u/Tax-Calculator does not contain subdirectory taxcalc ")
  /\
  trace no_package_dir
    (release "/home/u" None (PStr "Tax-Calculator") (PStr "taxcalc")
             (PStr "1.0.1") (PBool true) (PBool false) PNone) []
  = [(Getcwd, RStr "/home/u/Tax-Calculator");
     (Isdir "./taxcalc", RBool false)].
Proof.
  apply (local_layout_checked "/home/u" None no_package_dir
           "Tax-Calculator" "taxcalc" "1.0.1" (PBool false) PNone).
  vm_compute. reflexivity.
Defined.

(** C4 on a dry run, and on a local build that runs to its end. *)
Lemma dryrun_is_the_only_early_exit_witness :
  filter is_print
    (trace quiet_world
       (release "/home/u" None (PStr "Tax-Calculator") (PStr "taxcalc")
                (PStr "1.0.1") (PBool false) (PBool true) PNone) [])
  = map printed
      (plan "/home/u" "Tax-Calculator" "taxcalc" "1.0.1" false PNone
       ++ [": Package-Builder is quitting"])%list
  /\
  exists t now,
    trace quiet_world local_run [] = (t ++ cleanup "/home/u" now)%list.
Proof.
  split.
  - apply (proj1 (dryrun_is_the_only_early_exit "/home/u" None quiet_world
                    "Tax-Calculator" "taxcalc" "1.0.1" false PNone)).
    vm_compute. reflexivity.
  - apply (proj2 (dryrun_is_the_only_early_exit "/home/u" None quiet_world
                    "Tax-Calculator" "taxcalc" "1.0.1" true
                    (PList [PStr "conda-forge"]))
             (PStr "Tax-Calculator") (PStr "taxcalc") (PStr "1.0.1")
             (PBool true) (PBool false)).
    + vm_compute. reflexivity.
    + discriminate.
Defined.

(** C10 with the two characters of [n] and an accented [e] (three
    bytes) passed for [channels]: two flags. *)
Lemma channels_unchecked_witness :
  In (printed ": Package-Builder will build model packages for:")
     (trace quiet_world accented_channels_run [])
  /\
  exists items flags,
    py_iter (py_or (PStr (String (ascii_of_nat 110)
                            (String (ascii_of_nat 195)
                               (String (ascii_of_nat 169) ""))))
                   (PList [])) = inr items /\
    length flags = length items /\
    Forall2 (fun item flag => forall s, item = PStr s -> flag = s)
            items flags /\
    fst (nth 22 (trace quiet_world accented_channels_run []) nowhere)
    = Subprocess
        ("conda build conda.recipe/ --token "
         ++ TOKEN "/home/u" None
         ++ " --user pslmodels --output-folder pkgbld_output"
         ++ " --override-channels "
         ++ channel_args (flags ++ ["defaults"; "pslmodels"])) /\
    (forall s,
       PStr (String (ascii_of_nat 110)
               (String (ascii_of_nat 195) (String (ascii_of_nat 169) "")))
       = PStr s ->
       String.concat "" flags = s /\
       (starts_with_continuation s = false -> Forall one_character flags) /\
       (is_ascii s = true ->
        flags = map (fun c => String c "") (list_ascii_of_string s))).
Proof.
  split.
  - apply (proj1 (channels_unchecked "/home/u" None quiet_world
                    (PStr "Tax-Calculator") (PStr "taxcalc") (PStr "1.0.1")
                    (PBool false) (PBool false)
                    (PStr (String (ascii_of_nat 110)
                             (String (ascii_of_nat 195)
                                (String (ascii_of_nat 169) "")))))).
    vm_compute. reflexivity.
  - apply (proj2 (channels_unchecked "/home/u" None quiet_world
                    (PStr "Tax-Calculator") (PStr "taxcalc") (PStr "1.0.1")
                    (PBool false) (PBool false)
                    (PStr (String (ascii_of_nat 110)
                             (String (ascii_of_nat 195)
                                (String (ascii_of_nat 169) "")))))
             (firstn 22 (trace quiet_world accented_channels_run []))
             (nth 22 (trace quiet_world accented_channels_run []) nowhere)
             (skipn 23 (trace quiet_world accented_channels_run []))).
    + vm_compute. reflexivity.
    + vm_compute. reflexivity.
Defined.

(* ================================================================= *)
(** ** Further properties of the procedure *)

Lemma each_split_spec f R pre0 l :
  each_split f R pre0 l ->
  forall pre e post,
    l = (pre ++ e :: post)%list -> f e = true -> R (pre0 ++ pre)%list e post.
Proof.
  revert pre0; induction l as [|x l IH]; intros pre0 H pre e post Heq He.
  - now destruct pre.
  - simpl in H. destruct pre as [|y pre]; simpl in Heq.
    + injection Heq as -> ->. rewrite He in H. rewrite app_nil_r. apply H.
    + injection Heq as -> ->.
      assert (Hl : each_split f R (pre0 ++ [y]) (pre ++ e :: post))
        by (destruct (f y); [apply H | exact H]).
      specialize (IH _ Hl pre e post eq_refl He).
      now rewrite <- app_assoc in IH.
Qed.

(** A property of every event of a kind together with what comes
    before and after it, checked on every run. *)
Lemma run_each_split {A} (w : world) (m : prog A) (f : event -> bool)
  (R : list event -> event -> list event -> result A -> Prop) :
  wp w m [] (fun h r =>
               each_split f (fun pre e post => R pre e post r) [] (rev h)) ->
  forall pre e post,
    trace w m [] = (pre ++ e :: post)%list -> f e = true ->
    R pre e post (final w m []).
Proof.
  intros H pre e post Htrace He.
  apply (run_spec w m (fun t r =>
           each_split f (fun pre e post => R pre e post r) [] t)) in H.
  exact (each_split_spec f _ [] _ H pre e post Htrace He).
Qed.

(** X2.  A filesystem or stamping call that raises is the last event
    of the run, and the run ends with the exception it raised: nothing
    is attempted after a failure, and nothing is rolled back. *)
Theorem failed_call_ends_run
  HOME_DIR ANACONDA_TOKEN (w : world)
  repo_name pkg_name version local dryrun channels pre e post :
  trace w (release HOME_DIR ANACONDA_TOKEN
             repo_name pkg_name version local dryrun channels) []
    = (pre ++ e :: post)%list ->
  is_failed e = true ->
  post = [] /\
  exists err,
    snd e = ROutcome (Failed err) /\
    final w (release HOME_DIR ANACONDA_TOKEN
               repo_name pkg_name version local dryrun channels) []
    = Raised err.
Proof.
  apply (run_each_split w _ is_failed
           (fun _ e post r =>
              post = [] /\
              exists err, snd e = ROutcome (Failed err) /\ r = Raised err)).
  unfold release. wp_run_all.
  all: cbn; trivial.
  all: repeat split; eexists; split; reflexivity.
Qed.

Lemma copy_destination_relative HOME_DIR r :
  startswith r sep = false ->
  os_path_join (WORKING_DIR HOME_DIR) [r] = WORKING_DIR HOME_DIR ++ "/" ++ r.
Proof.
  intros Hr. destruct (WORKING_DIR_plain HOME_DIR) as [Hne Hend].
  unfold os_path_join. simpl fold_left. now apply join_step_plain.
Qed.

Lemma copy_destination_absolute HOME_DIR r :
  startswith r sep = true -> os_path_join (WORKING_DIR HOME_DIR) [r] = r.
Proof.
  intros Hr. unfold os_path_join. simpl fold_left.
  now apply join_step_absolute.
Qed.

(** X3.  What the filesystem calls of [release] are called with:
    [rmtree] always with [WORKING_DIR]; [mkdir] with [WORKING_DIR] and
    only in remote mode; [copytree] only in local mode, from the
    current directory read by the check, leaving out [*.pyc], [*.html]
    and [test_*], to [os.path.join(WORKING_DIR, repo_name)], which is
    [WORKING_DIR/<repo_name>] for a repository name that does not
    start with a separator and the repository name itself, outside
    the working directory, for one that does; [chdir] with
    [WORKING_DIR], with the repository name or with the home
    directory. *)
Theorem filesystem_call_targets
  HOME_DIR ANACONDA_TOKEN (w : world)
  repo_name pkg_name version local dryrun channels e :
  In e (trace w (release HOME_DIR ANACONDA_TOKEN
                   repo_name pkg_name version local dryrun channels) []) ->
  is_fs_change e = true ->
  call_target HOME_DIR w repo_name local (fst e).
Proof.
  apply (run_each w _ is_fs_change
           (fun _ e => call_target HOME_DIR w repo_name local (fst e))).
  unfold release. wp_run_all.
  all: cbn.
  all: repeat match goal with
         | |- Forall _ (_ :: _) => apply Forall_cons
         | |- Forall _ [] => apply Forall_nil
         end.
  all: subst; cbn [call_target fst].
  all: first
         [ reflexivity
         | split; reflexivity
         | left; reflexivity
         | right; left; reflexivity
         | right; right; reflexivity
         | split; [reflexivity |];
           split; [reflexivity |];
           split; [reflexivity |];
           eexists; split; [reflexivity |];
           split; [reflexivity |];
           split;
           [ apply copy_destination_relative
           | apply copy_destination_absolute ] ].
Qed.

(** X4.  When a stamping operation is issued, the changes of
    directory made so far are exactly the one to [WORKING_DIR] and
    then the one to the repository name, both completed.  In local
    mode the copy of the current directory to
    [os.path.join(WORKING_DIR, repo_name)] has completed before, and
    nothing was cloned; in remote mode the clone of the requested tag
    was issued before, and nothing was copied. *)
Theorem stamping_after_acquisition
  HOME_DIR ANACONDA_TOKEN (w : world)
  repo_name pkg_name version local dryrun channels pre e post :
  trace w (release HOME_DIR ANACONDA_TOKEN
             repo_name pkg_name version local dryrun channels) []
    = (pre ++ e :: post)%list ->
  is_stamp e = true ->
  exists r v,
    repo_name = PStr r /\ version = PStr v /\
    filter is_chdir pre
    = [ (Chdir (WORKING_DIR HOME_DIR), ROutcome Done);
        (Chdir r, ROutcome Done) ] /\
    (local = PBool true ->
     filter is_copytree pre
     = [ (Copytree (w [] Getcwd) (os_path_join (WORKING_DIR HOME_DIR) [r])
            ["*.pyc"; "*.html"; "test_*"], ROutcome Done) ] /\
     filter is_clone pre = []) /\
    (local = PBool false ->
     map fst (filter is_clone pre)
     = [ Subprocess
           ("git clone --branch " ++ v
            ++ " --depth 1 https://github.com/PSLmodels/" ++ r ++ "/") ] /\
     filter is_copytree pre = []).
Proof.
  apply (run_each_split w _ is_stamp
           (fun pre _ _ _ => exists r v,
              repo_name = PStr r /\ version = PStr v /\
              filter is_chdir pre
              = [ (Chdir (WORKING_DIR HOME_DIR), ROutcome Done);
                  (Chdir r, ROutcome Done) ] /\
              (local = PBool true ->
               filter is_copytree pre
               = [ (Copytree (w [] Getcwd)
                      (os_path_join (WORKING_DIR HOME_DIR) [r])
                      ["*.pyc"; "*.html"; "test_*"], ROutcome Done) ] /\
               filter is_clone pre = []) /\
              (local = PBool false ->
               map fst (filter is_clone pre)
               = [ Subprocess
                     ("git clone --branch " ++ v
                      ++ " --depth 1 https://github.com/PSLmodels/"
                      ++ r ++ "/") ] /\
               filter is_copytree pre = []))).
  unfold release. wp_run_all.
  all: cbn; trivial.
  all: subst.
  all: repeat match goal with |- _ /\ _ => split end.
  all: do 2 eexists.
  all: split; [reflexivity |]; split; [reflexivity |];
       split; [reflexivity |].
  all: split; intros Hl; try discriminate Hl; split; reflexivity.
Qed.

(** X5.  A working directory left over from an earlier run is removed
    before the source is put in place: when the working directory is
    created or the local tree is copied, [os.path.isdir(WORKING_DIR)]
    has been asked, and if the answer was yes a completed
    [rmtree(WORKING_DIR)] has followed it; if it was no, nothing has
    been removed. *)
Theorem stale_directory_removed_first
  HOME_DIR ANACONDA_TOKEN (w : world)
  repo_name pkg_name version local dryrun channels pre e post :
  trace w (release HOME_DIR ANACONDA_TOKEN
             repo_name pkg_name version local dryrun channels) []
    = (pre ++ e :: post)%list ->
  is_acquire e = true ->
  exists (existed : bool) line rest,
    rev pre
    = ((Print line, RUnit)
       :: (if existed
           then [(Rmtree (WORKING_DIR HOME_DIR), ROutcome Done)]
           else [])
       ++ (Isdir (WORKING_DIR HOME_DIR), RBool existed) :: rest)%list /\
    filter is_rmtree rest = [].
Proof.
  apply (run_each_split w _ is_acquire
           (fun pre _ _ _ => exists (existed : bool) line rest,
              rev pre
              = ((Print line, RUnit)
                 :: (if existed
                     then [(Rmtree (WORKING_DIR HOME_DIR), ROutcome Done)]
                     else [])
                 ++ (Isdir (WORKING_DIR HOME_DIR), RBool existed)
                    :: rest)%list /\
              filter is_rmtree rest = [])).
  unfold release. wp_run_all.
  all: repeat match goal with
         | H : _ _ (Isdir (WORKING_DIR _)) = _ |- _ => rewrite H; clear H
         end.
  all: cbn; trivial.
  all: repeat split.
  all: match goal with
       | |- context [(Isdir (WORKING_DIR _), RBool ?b)] => exists b
       end.
  all: eexists _, _; split; reflexivity.
Qed.

(** X6.  The repository is cloned only in remote mode, at the tag that
    is the requested version, from [GITHUB_URL/<repo_name>/], with
    depth 1, and right after the working directory has been created
    and entered. *)
Theorem clone_of_requested_tag
  HOME_DIR ANACONDA_TOKEN (w : world)
  repo_name pkg_name version local dryrun channels pre e post :
  trace w (release HOME_DIR ANACONDA_TOKEN
             repo_name pkg_name version local dryrun channels) []
    = (pre ++ e :: post)%list ->
  is_clone e = true ->
  exists r v rest,
    repo_name = PStr r /\ version = PStr v /\ local = PBool false /\
    fst e = Subprocess
              ("git clone --branch " ++ v
               ++ " --depth 1 https://github.com/PSLmodels/" ++ r ++ "/") /\
    rev pre = (Chdir (WORKING_DIR HOME_DIR), ROutcome Done)
              :: (Mkdir (WORKING_DIR HOME_DIR), ROutcome Done) :: rest /\
    filter is_clone pre = [] /\ filter is_clone post = [].
Proof.
  apply (run_each_split w _ is_clone
           (fun pre e post _ => exists r v rest,
              repo_name = PStr r /\ version = PStr v /\
              local = PBool false /\
              fst e = Subprocess
                        ("git clone --branch " ++ v
                         ++ " --depth 1 https://github.com/PSLmodels/"
                         ++ r ++ "/") /\
              rev pre = (Chdir (WORKING_DIR HOME_DIR), ROutcome Done)
                        :: (Mkdir (WORKING_DIR HOME_DIR), ROutcome Done)
                        :: rest /\
              filter is_clone pre = [] /\ filter is_clone post = [])).
  unfold release. wp_run_all.
  all: cbn; trivial.
  all: subst; repeat split; eexists _, _, _; repeat split.
Qed.

(** X7.  Uploading is switched off for a local build and on for a
    remote one: the command issued just before the build is announced
    and started sets [anaconda_upload] to [no] in local mode and to
    [yes] otherwise. *)
Theorem upload_follows_mode
  HOME_DIR ANACONDA_TOKEN (w : world)
  repo_name pkg_name version local dryrun channels pre e post :
  trace w (release HOME_DIR ANACONDA_TOKEN
             repo_name pkg_name version local dryrun channels) []
    = (pre ++ e :: post)%list ->
  is_build e = true ->
  exists l status rest,
    local = PBool l /\
    rev pre = (Print ": Package-Builder is building package", RUnit)
              :: (Subprocess (upload_cmd l), RStatus status) :: rest.
Proof.
  intros Htrace He.
  refine (at_build HOME_DIR ANACONDA_TOKEN w
            repo_name pkg_name version local dryrun channels
            (fun pre _ _ _ => exists l status rest,
               local = PBool l /\
               rev pre
               = (Print ": Package-Builder is building package", RUnit)
                 :: (Subprocess (upload_cmd l), RStatus status) :: rest)
            _ pre e post Htrace He).
  clear Htrace He pre e post.
  unfold release. wp_run_all.
  all: cbn; trivial.
  all: subst; eexists _, _, _; split; reflexivity.
Qed.

(** X8.  The external commands of a run that goes through the whole
    procedure, in order: in remote mode the clone, the upload setting,
    the build and the purge; in local mode the upload setting, the
    build, the uninstall, the install and the purge. *)
Theorem commands_of_a_complete_run
  HOME_DIR ANACONDA_TOKEN (w : world)
  repo_name pkg_name version local dryrun channels :
  final w (release HOME_DIR ANACONDA_TOKEN
             repo_name pkg_name version local dryrun channels) []
  = Returned tt ->
  dryrun <> PBool true ->
  exists r p v l items,
    repo_name = PStr r /\ pkg_name = PStr p /\ version = PStr v /\
    local = PBool l /\
    py_iter (py_or channels (PList [])) = inr items /\
    map fst
      (filter is_subprocess
         (trace w (release HOME_DIR ANACONDA_TOKEN
                     repo_name pkg_name version local dryrun channels) []))
    = commands HOME_DIR ANACONDA_TOKEN r p v l items.
Proof.
  apply (run_spec w _ (fun t res =>
           res = Returned tt -> dryrun <> PBool true ->
           exists r p v l items,
             repo_name = PStr r /\ pkg_name = PStr p /\ version = PStr v /\
             local = PBool l /\
             py_iter (py_or channels (PList [])) = inr items /\
             map fst (filter is_subprocess t)
             = commands HOME_DIR ANACONDA_TOKEN r p v l items)).
  unfold release. wp_run_all.
  all: intros Hret Hdry; try discriminate Hret.
  all: try (subst; now elim Hdry).
  all: subst; eexists _, _, _, _, _.
  all: split; [reflexivity |]; split; [reflexivity |];
       split; [reflexivity |]; split; [reflexivity |];
       split; [eassumption |].
  all: reflexivity.
Qed.


(** X10.  What is installed on the local computer is touched only in
    local mode, and only after the build command has been issued. *)
Theorem local_install_only_in_local_mode
  HOME_DIR ANACONDA_TOKEN (w : world)
  repo_name pkg_name version local dryrun channels pre e post :
  trace w (release HOME_DIR ANACONDA_TOKEN
             repo_name pkg_name version local dryrun channels) []
    = (pre ++ e :: post)%list ->
  is_local_install e = true ->
  local = PBool true /\ existsb is_build pre = true.
Proof.
  apply (run_each_split w _ is_local_install
           (fun pre _ _ _ =>
              local = PBool true /\ existsb is_build pre = true)).
  unfold release. wp_run_all.
  all: cbn; trivial.
  all: subst; repeat split.
Qed.

Lemma length_append a b :
  String.length (a ++ b) = String.length a + String.length b.
Proof. induction a as [|c a IH]; simpl; [reflexivity | now rewrite IH]. Qed.

(** X11.  The working directory, the only directory [release] ever
    removes, is never the home directory itself, never the root and
    never the empty path, whatever the home directory is. *)
Theorem working_dir_is_safe_to_remove HOME_DIR :
  WORKING_DIR HOME_DIR <> HOME_DIR /\
  WORKING_DIR HOME_DIR <> "/" /\
  WORKING_DIR HOME_DIR <> "".
Proof.
  destruct (WORKING_DIR_plain HOME_DIR) as [Hne Hend].
  repeat split; trivial.
  - unfold WORKING_DIR, os_path_join. simpl fold_left. unfold join_step.
    change (startswith "temporary_pkgbld_working_dir" sep) with false.
    cbv iota. intros H. apply (f_equal String.length) in H.
    destruct (_ || _); rewrite !length_append in H; simpl in H; lia.
  - intros H. rewrite H in Hend. discriminate Hend.
Qed.

(** X12.  The build command never gets an empty token: a token from
    the environment is used when it is set and not empty, and the path
    of the token file in the home directory otherwise. *)
Theorem token_is_never_empty HOME_DIR ANACONDA_TOKEN :
  TOKEN HOME_DIR ANACONDA_TOKEN <> "" /\
  (forall t, ANACONDA_TOKEN = Some t -> t <> "" ->
     TOKEN HOME_DIR ANACONDA_TOKEN = t) /\
  (ANACONDA_TOKEN = None \/ ANACONDA_TOKEN = Some "" ->
   TOKEN HOME_DIR ANACONDA_TOKEN
   = os_path_join HOME_DIR [".pslmodels_anaconda_token"]).
Proof.
  assert (Hfile : ANACONDA_TOKEN_FILE HOME_DIR <> "").
  { unfold ANACONDA_TOKEN_FILE, os_path_join. simpl fold_left.
    unfold join_step.
    change (startswith ("." ++ ANACONDA_USER ++ "_anaconda_token") sep)
      with false.
    cbv iota. destruct (_ || _); now apply append_nonempty_r. }
  unfold TOKEN. repeat split.
  - destruct ANACONDA_TOKEN as [t|]; [| exact Hfile].
    destruct (String.eqb_spec t ""); [exact Hfile | assumption].
  - intros t -> Ht. destruct (String.eqb_spec t ""); [contradiction | reflexivity].
  - intros [-> | ->]; reflexivity.
Qed.

(** *** The further properties at concrete requests *)

(** X2 on a remote build whose recipe file is missing. *)
Lemma failed_call_ends_run_witness :
  skipn 18 (trace missing_recipe_world remote_run []) = [] /\
  exists err,
    snd (nth 17 (trace missing_recipe_world remote_run []) nowhere)
    = ROutcome (Failed err) /\
    final missing_recipe_world remote_run [] = Raised err.
Proof.
  apply (failed_call_ends_run "/home/u" None missing_recipe_world
           (PStr "Tax-Calculator") (PStr "taxcalc") (PStr "1.0.1")
           (PBool false) (PBool false) PNone
           (firstn 17 (trace missing_recipe_world remote_run []))
           (nth 17 (trace missing_recipe_world remote_run []) nowhere)
           (skipn 18 (trace missing_recipe_world remote_run []))).
  - vm_compute. reflexivity.
  - vm_compute. reflexivity.
Defined.

(** X3 on the copy of the tree in a local build whose repository name
    is an absolute path. *)
Lemma filesystem_call_targets_witness :
  call_target "/home/u" quiet_world (PStr "/Tax-Calculator") (PBool true)
    (fst (nth 12 (trace quiet_world absolute_repo_run []) nowhere)).
Proof.
  apply (filesystem_call_targets "/home/u" None quiet_world
           (PStr "/Tax-Calculator") (PStr "taxcalc") (PStr "1.0.1")
           (PBool true) (PBool false) PNone
           (nth 12 (trace quiet_world absolute_repo_run []) nowhere)).
  - vm_compute. do 12 right. left. reflexivity.
  - vm_compute. reflexivity.
Defined.

(** X4 on the first stamp of a local build. *)
Lemma stamping_after_acquisition_witness :
  exists r v,
    PStr "Tax-Calculator" = PStr r /\ PStr "1.0.1" = PStr v /\
    filter is_chdir (firstn 16 (trace quiet_world local_run []))
    = [ (Chdir (WORKING_DIR "/home/u"), ROutcome Done);
        (Chdir r, ROutcome Done) ] /\
    (PBool true = PBool true ->
     filter is_copytree (firstn 16 (trace quiet_world local_run []))
     = [ (Copytree (quiet_world [] Getcwd)
            (os_path_join (WORKING_DIR "/home/u") [r])
            ["*.pyc"; "*.html"; "test_*"], ROutcome Done) ] /\
     filter is_clone (firstn 16 (trace quiet_world local_run [])) = []) /\
    (PBool true = PBool false ->
     map fst (filter is_clone (firstn 16 (trace quiet_world local_run [])))
     = [ Subprocess
           ("git clone --branch " ++ v
            ++ " --depth 1 https://github.com/PSLmodels/" ++ r ++ "/") ] /\
     filter is_copytree (firstn 16 (trace quiet_world local_run [])) = []).
Proof.
  apply (stamping_after_acquisition "/home/u" None quiet_world
           (PStr "Tax-Calculator") (PStr "taxcalc") (PStr "1.0.1")
           (PBool true) (PBool false) (PList [PStr "conda-forge"])
           (firstn 16 (trace quiet_world local_run []))
           (nth 16 (trace quiet_world local_run []) nowhere)
           (skipn 17 (trace quiet_world local_run []))).
  - vm_compute. reflexivity.
  - vm_compute. reflexivity.
Defined.

(** X5 on a local build that finds a working directory left over. *)
Lemma stale_directory_removed_first_witness :
  exists (existed : bool) line rest,
    rev (firstn 13 (trace stale_dir_world local_run []))
    = ((Print line, RUnit)
       :: (if existed
           then [(Rmtree (WORKING_DIR "/home/u"), ROutcome Done)]
           else [])
       ++ (Isdir (WORKING_DIR "/home/u"), RBool existed) :: rest)%list /\
    filter is_rmtree rest = [].
Proof.
  apply (stale_directory_removed_first "/home/u" None stale_dir_world
           (PStr "Tax-Calculator") (PStr "taxcalc") (PStr "1.0.1")
           (PBool true) (PBool false) (PList [PStr "conda-forge"])
           (firstn 13 (trace stale_dir_world local_run []))
           (nth 13 (trace stale_dir_world local_run []) nowhere)
           (skipn 14 (trace stale_dir_world local_run []))).
  - vm_compute. reflexivity.
  - vm_compute. reflexivity.
Defined.

(** X6 on a remote build. *)
Lemma clone_of_requested_tag_witness :
  exists r v rest,
    PStr "Tax-Calculator" = PStr r /\ PStr "1.0.1" = PStr v /\
    PBool false = PBool false /\
    fst (nth 14 (trace quiet_world remote_run []) nowhere)
    = Subprocess
        ("git clone --branch " ++ v
         ++ " --depth 1 https://github.com/PSLmodels/" ++ r ++ "/") /\
    rev (firstn 14 (trace quiet_world remote_run []))
    = (Chdir (WORKING_DIR "/home/u"), ROutcome Done)
      :: (Mkdir (WORKING_DIR "/home/u"), ROutcome Done) :: rest /\
    filter is_clone (firstn 14 (trace quiet_world remote_run [])) = [] /\
    filter is_clone (skipn 15 (trace quiet_world remote_run [])) = [].
Proof.
  apply (clone_of_requested_tag "/home/u" None quiet_world
           (PStr "Tax-Calculator") (PStr "taxcalc") (PStr "1.0.1")
           (PBool false) (PBool false) PNone
           (firstn 14 (trace quiet_world remote_run []))
           (nth 14 (trace quiet_world remote_run []) nowhere)
           (skipn 15 (trace quiet_world remote_run []))).
  - vm_compute. reflexivity.
  - vm_compute. reflexivity.
Defined.

(** X7 on a local build. *)
Lemma upload_follows_mode_witness :
  exists l status rest,
    PBool true = PBool l /\
    rev (firstn 21 (trace quiet_world local_run []))
    = (Print ": Package-Builder is building package", RUnit)
      :: (Subprocess (upload_cmd l), RStatus status) :: rest.
Proof.
  apply (upload_follows_mode "/home/u" None quiet_world
           (PStr "Tax-Calculator") (PStr "taxcalc") (PStr "1.0.1")
           (PBool true) (PBool false) (PList [PStr "conda-forge"])
           (firstn 21 (trace quiet_world local_run []))
           (nth 21 (trace quiet_world local_run []) nowhere)
           (skipn 22 (trace quiet_world local_run []))).
  - vm_compute. reflexivity.
  - vm_compute. reflexivity.
Defined.

(** X8 on a local build in which every command succeeds. *)
Lemma commands_of_a_complete_run_witness :
  exists r p v l items,
    PStr "Tax-Calculator" = PStr r /\ PStr "taxcalc" = PStr p /\
    PStr "1.0.1" = PStr v /\ PBool true = PBool l /\
    py_iter (py_or (PList [PStr "conda-forge"]) (PList [])) = inr items /\
    map fst (filter is_subprocess (trace quiet_world local_run []))
    = commands "/home/u" None r p v l items.
Proof.
  apply (commands_of_a_complete_run "/home/u" None quiet_world
           (PStr "Tax-Calculator") (PStr "taxcalc") (PStr "1.0.1")
           (PBool true) (PBool false) (PList [PStr "conda-forge"])).
  - vm_compute. reflexivity.
  - discriminate.
Defined.


(** X10 on the uninstall of a local build. *)
Lemma local_install_only_in_local_mode_witness :
  PBool true = PBool true /\
  existsb is_build (firstn 23 (trace quiet_world local_run [])) = true.
Proof.
  apply (local_install_only_in_local_mode "/home/u" None quiet_world
           (PStr "Tax-Calculator") (PStr "taxcalc") (PStr "1.0.1")
           (PBool true) (PBool false) (PList [PStr "conda-forge"])
           (firstn 23 (trace quiet_world local_run []))
           (nth 23 (trace quiet_world local_run []) nowhere)
           (skipn 24 (trace quiet_world local_run []))).
  - vm_compute. reflexivity.
  - vm_compute. reflexivity.
Defined.
